(** * Experiment builder of the causal-inference benchmark (experiment.py)

    A shallow embedding of the [Experiment] class: the metric registry, the
    result store, the runner and the built-in data-generating mechanisms,
    followed by the properties of the specification that were checked on it.

    Numbers.  Python and numpy compute with IEEE-754 doubles.  The embedding
    keeps the special values the code can produce ([inf], [-inf], [nan]) and
    the rules by which numpy creates and propagates them, and takes the finite
    values to be exact rationals: rounding, overflow and the sign of zero are
    not modelled.  numpy reports a division by zero as a [RuntimeWarning] and
    returns the special value; it raises nothing. *)

From Stdlib Require Import String List Bool Arith Lia ZArith QArith Qabs Lqa DecimalString.
From Stdlib Require DecimalPos DecimalZ.
Import ListNotations.
Close Scope Q_scope.
Open Scope string_scope.
Open Scope list_scope.

Set Implicit Arguments.

(* ================================================================== *)
(** ** Numbers *)

Module Num.
Local Open Scope Q_scope.

Inductive num : Type :=
| Fin (q : Q)
| PInf
| NInf
| NaN.

Definition of_nat (n : nat) : num := Fin (inject_Z (Z.of_nat n)).
Definition of_Z (z : Z) : num := Fin (inject_Z z).

(** Equality of values: rational equality on the finite ones. *)
Definition num_eq (a b : num) : Prop :=
  match a, b with
  | Fin x, Fin y => x == y
  | PInf, PInf => True
  | NInf, NInf => True
  | NaN, NaN => True
  | _, _ => False
  end.

Definition num_eqb (a b : num) : bool :=
  match a, b with
  | Fin x, Fin y => Qeq_bool x y
  | PInf, PInf => true
  | NInf, NInf => true
  | NaN, NaN => true
  | _, _ => false
  end.

Definition is_nan (a : num) : bool :=
  match a with NaN => true | _ => false end.

Definition is_inf (a : num) : bool :=
  match a with PInf | NInf => true | _ => false end.

Definition is_finite (a : num) : bool :=
  match a with Fin _ => true | _ => false end.

Definition nopp (a : num) : num :=
  match a with
  | Fin x => Fin (- x)
  | PInf => NInf
  | NInf => PInf
  | NaN => NaN
  end.

Definition nadd (a b : num) : num :=
  match a, b with
  | NaN, _ | _, NaN => NaN
  | Fin x, Fin y => Fin (x + y)
  | PInf, NInf | NInf, PInf => NaN
  | PInf, _ | _, PInf => PInf
  | NInf, _ | _, NInf => NInf
  end.

Definition nsub (a b : num) : num := nadd a (nopp b).

(** [inf * 0] is [nan]; otherwise the sign rule. *)
Definition scale_inf (positive : bool) (x : Q) : num :=
  if Qeq_bool x 0 then NaN
  else if Qle_bool 0 x then (if positive then PInf else NInf)
       else (if positive then NInf else PInf).

Definition nmul (a b : num) : num :=
  match a, b with
  | NaN, _ | _, NaN => NaN
  | Fin x, Fin y => Fin (x * y)
  | PInf, Fin y => scale_inf true y
  | NInf, Fin y => scale_inf false y
  | Fin x, PInf => scale_inf true x
  | Fin x, NInf => scale_inf false x
  | PInf, PInf | NInf, NInf => PInf
  | PInf, NInf | NInf, PInf => NInf
  end.

(** numpy's true division: [x / 0] is [inf] with the sign of [x], [0 / 0]
    and [inf / inf] are [nan], a finite value over [inf] is [0]. *)
Definition ndiv (a b : num) : num :=
  match a, b with
  | NaN, _ | _, NaN => NaN
  | Fin x, Fin y =>
      if Qeq_bool y 0 then
        (if Qeq_bool x 0 then NaN
         else if Qle_bool 0 x then PInf else NInf)
      else Fin (x / y)
  | Fin _, (PInf | NInf) => Fin 0
  | PInf, Fin y => if Qle_bool 0 y then PInf else NInf
  | NInf, Fin y => if Qle_bool 0 y then NInf else PInf
  | (PInf | NInf), (PInf | NInf) => NaN
  end.

(** [np.abs] and Python's [abs]. *)
Definition nabs (a : num) : num :=
  match a with
  | Fin x => Fin (Qabs x)
  | PInf | NInf => PInf
  | NaN => NaN
  end.

(** [x ** 2]. *)
Definition nsquare (a : num) : num := nmul a a.

(** [np.sum] of a sequence, from the left, starting at [0]. *)
Definition np_sum (xs : list num) : num := fold_left nadd xs (Fin 0).

(** [np.mean]: the sum over the number of elements; [nan] on an empty
    sequence. *)
Definition np_mean (xs : list num) : num := ndiv (np_sum xs) (of_nat (List.length xs)).

End Num.
Export Num.

Declare Scope num_scope.
Delimit Scope num_scope with num.
Infix "+" := nadd : num_scope.
Infix "-" := nsub : num_scope.
Infix "*" := nmul : num_scope.
Infix "/" := ndiv : num_scope.
Infix "=n=" := num_eq (at level 70, no associativity).

(* ================================================================== *)
(** ** Exceptions and results *)

(** The exceptions the embedded code can raise; [External] stands for
    whatever a collaborator (a model, a generator, the file system) raises. *)
Inductive exn : Type :=
| AssertionError
| IndexError
| KeyError
| TypeError
| ValueError
| External (what : string).

Inductive result (A : Type) : Type :=
| Ok (a : A)
| Err (e : exn).
Arguments Ok {A} a.
Arguments Err {A} e.

Definition is_ok {A} (r : result A) : bool :=
  match r with Ok _ => true | Err _ => false end.

Definition rbind {A B} (r : result A) (k : A -> result B) : result B :=
  match r with
  | Ok a => k a
  | Err e => Err e
  end.

(** [xs[i]] for [0 <= i]: [IndexError] out of range. *)
Definition index_at {A} (xs : list A) (i : nat) : result A :=
  match nth_error xs i with
  | Some x => Ok x
  | None => Err IndexError
  end.

(** A list comprehension whose element expression may raise: the first
    exception, in iteration order, ends it. *)
Fixpoint comprehension {A B} (f : A -> result B) (xs : list A) : result (list B) :=
  match xs with
  | [] => Ok []
  | x :: rest =>
      match f x with
      | Err e => Err e
      | Ok y =>
          match comprehension f rest with
          | Err e => Err e
          | Ok ys => Ok (y :: ys)
          end
      end
  end.

(* ================================================================== *)
(** ** The built-in metrics

    A metric is called as [metric(ite_truth, ite_pred)] on two numeric
    sequences. *)

Definition Metric : Type := list num -> list num -> result num.

Module Metrics.

(** [lambda ite_truth, ite_pred: np.mean(ite_truth)] *)
Definition true_ate : Metric :=
  fun ite_truth ite_pred => Ok (np_mean ite_truth).

(** [lambda ite_truth, ite_pred: np.mean(ite_pred)] *)
Definition estimated_ate : Metric :=
  fun ite_truth ite_pred => Ok (np_mean ite_pred).

(** [[h(ite_truth[i], ite_pred[i]) for i in range(len(ite_truth))]] *)
Definition pairwise (h : num -> num -> num) (ite_truth ite_pred : list num)
    : result (list num) :=
  comprehension
    (fun i => rbind (index_at ite_truth i) (fun t =>
              rbind (index_at ite_pred i) (fun p =>
              Ok (h t p))))
    (seq 0 (List.length ite_truth)).

(** [np.sum([(ite_truth[i] - ite_pred[i]) ** 2 for i in range(len(ite_truth))])
     / np.prod(ite_truth.shape)] *)
Definition mean_squared_error : Metric :=
  fun ite_truth ite_pred =>
    rbind (pairwise (fun t p => nsquare (t - p)%num) ite_truth ite_pred)
          (fun terms => Ok (np_sum terms / of_nat (List.length ite_truth))%num).

(** [np.sum([abs(ite_truth[i] - ite_pred[i]) for i in range(len(ite_truth))])
     / np.prod(ite_truth.shape)] *)
Definition absolute_error : Metric :=
  fun ite_truth ite_pred =>
    rbind (pairwise (fun t p => nabs (t - p)%num) ite_truth ite_pred)
          (fun terms => Ok (np_sum terms / of_nat (List.length ite_truth))%num).

(** [np.abs(np.mean(ite_truth) - np.mean(ite_pred))] *)
Definition ate_error : Metric :=
  fun ite_truth ite_pred =>
    Ok (nabs (np_mean ite_truth - np_mean ite_pred)%num).

(** [np.abs((np.mean(ite_truth) - np.mean(ite_pred)) / np.mean(ite_truth)) * 100] *)
Definition ate_percent_error : Metric :=
  fun ite_truth ite_pred =>
    Ok (nabs ((np_mean ite_truth - np_mean ite_pred) / np_mean ite_truth)
        * of_Z 100)%num.

End Metrics.

(* ================================================================== *)
(** ** Dictionaries, data frames and arrays *)

(** A Python [dict] with string keys: keys are unique and kept in insertion
    order. *)
Definition dict (V : Type) : Type := list (string * V).

Definition keys {V} (d : dict V) : list string := map fst d.
Definition dict_values {V} (d : dict V) : list V := map snd d.

Fixpoint dict_get {V} (k : string) (d : dict V) : option V :=
  match d with
  | [] => None
  | (k', v) :: rest => if String.eqb k k' then Some v else dict_get k rest
  end.

(** [d[k] = v]: an existing key keeps its place and takes the new value, a
    new key goes to the end. *)
Fixpoint dict_set {V} (k : string) (v : V) (d : dict V) : dict V :=
  match d with
  | [] => [(k, v)]
  | (k', v') :: rest =>
      if String.eqb k k' then (k', v) :: rest
      else (k', v') :: dict_set k v rest
  end.

(** A [pandas.DataFrame] after [set_index('method_name')]: the row labels,
    the column labels, and one list of cells per row. *)
Record DataFrame : Type := {
  index : list string;
  columns : list string;
  values : list (list num)
}.

(** Position of the first column carrying a label. *)
Fixpoint column_position (label : string) (cols : list string) : option nat :=
  match cols with
  | [] => None
  | c :: rest =>
      if String.eqb label c then Some 0
      else option_map S (column_position label rest)
  end.

(** A numpy array of one or two dimensions; the rows of a two-dimensional
    array all have [ncols] cells. *)
Inductive ndarray : Type :=
| Arr1 (cells : list num)
| Arr2 (ncols : nat) (rows : list (list num)).

(** [DataFrame.to_numpy()] *)
Definition to_numpy (df : DataFrame) : ndarray :=
  Arr2 (List.length (columns df)) (values df).

(** numpy's broadcasting of one axis: equal sizes, or one of them is 1. *)
Definition broadcast_dim (n m : nat) : option nat :=
  if (n =? m)%nat then Some n
  else if (n =? 1)%nat then Some m
  else if (m =? 1)%nat then Some n
  else None.

(** An axis of size 1 is repeated to the broadcast size. *)
Definition stretch {A} (n : nat) (xs : list A) : list A :=
  match xs with
  | [x] => repeat x n
  | _ => xs
  end.

Definition map2 {A B C} (f : A -> B -> C) (xs : list A) (ys : list B) : list C :=
  map (fun p => f (fst p) (snd p)) (combine xs ys).

Definition add_cells (n : nat) (u v : list num) : list num :=
  map2 nadd (stretch n u) (stretch n v).

(** [a + b] on arrays; [ValueError] when the shapes cannot be broadcast. *)
Definition np_add (a b : ndarray) : result ndarray :=
  match a, b with
  | Arr1 u, Arr1 v =>
      match broadcast_dim (List.length u) (List.length v) with
      | Some n => Ok (Arr1 (add_cells n u v))
      | None => Err ValueError
      end
  | Arr1 u, Arr2 c rows =>
      match broadcast_dim (List.length u) c with
      | Some n => Ok (Arr2 n (map (fun r => add_cells n u r) rows))
      | None => Err ValueError
      end
  | Arr2 c rows, Arr1 v =>
      match broadcast_dim c (List.length v) with
      | Some n => Ok (Arr2 n (map (fun r => add_cells n r v) rows))
      | None => Err ValueError
      end
  | Arr2 c1 rows1, Arr2 c2 rows2 =>
      match broadcast_dim c1 c2,
            broadcast_dim (List.length rows1) (List.length rows2) with
      | Some n, Some r =>
          Ok (Arr2 n (map2 (add_cells n) (stretch r rows1) (stretch r rows2)))
      | _, _ => Err ValueError
      end
  end.

(** [a / k] for a scalar [k]. *)
Definition np_div (a : ndarray) (k : num) : ndarray :=
  match a with
  | Arr1 u => Arr1 (map (fun x => x / k)%num u)
  | Arr2 c rows => Arr2 c (map (map (fun x => x / k)%num) rows)
  end.

(** [s[5:]] *)
Definition drop5 (s : string) : string :=
  String.substring 5 (String.length s - 5) s.

(* ================================================================== *)
(** ** Collaborators

    The classes and functions imported from [compare], [data_generator],
    numpy and scipy are not part of this file.  They are taken as an
    environment; [World] is the state they share and change: the random
    stream, the file system and the attributes of the generator and model
    objects.  A call returns its result, or the exception it raised, with the
    world it leaves. *)

Definition W (World A : Type) : Type := World -> result A * World.

Definition wret {World A} (a : A) : W World A := fun w => (Ok a, w).
Definition wraise {World A} (e : exn) : W World A := fun w => (Err e, w).
Definition wbind {World A B} (c : W World A) (k : A -> W World B) : W World B :=
  fun w =>
    match c w with
    | (Ok a, w') => k a w'
    | (Err e, w') => (Err e, w')
    end.
Definition wpure {World A} (r : result A) : W World A := fun w => (r, w).
Definition wdraw {World A} (f : World -> A * World) : W World A :=
  fun w => let (a, w') := f w in (Ok a, w').

Declare Scope world_scope.
Delimit Scope world_scope with world.
Notation "x <- c ;; k" := (wbind c (fun x => k))
  (at level 61, c at next level, right associativity) : world_scope.
Notation "c ;;; k" := (wbind c (fun _ => k))
  (at level 61, right associativity) : world_scope.

(** The functions that make up a causal mechanism, as the generator methods
    pass them on. *)
Record CausalMechanism (World : Type) : Type := {
  mech_main_effect : list num -> result num;
  mech_treatment_effect : list num -> result num;
  mech_treatment_propensity : list num -> result num;
  mech_noise : World -> num * World;
  mech_cate : list num -> result num;
  mech_treatment_function : num -> num -> World -> num * World;
  mech_outcome_function : num -> num -> num -> num -> num
}.

Definition ProxyFunction (World : Type) : Type :=
  list num -> W World (list (list num)).

Record Env : Type := {
  World : Type;
  Generator : Type;
  Model : Type;
  Features : Type;
  (* CausalMethod *)
  model_str : Model -> string;
  estimate_causal_effect : Model -> Features -> W World (list num);
  (* Generator *)
  get_directory : Generator -> World -> string;
  set_directory : Generator -> string -> World -> World;
  generate_data : Generator -> nat -> bool -> bool -> bool -> W World unit;
  generated_data_files : Generator -> World -> list string;
  (* data_generator.ProxyGenerator(...) *)
  ProxyGenerator :
    CausalMechanism World -> ProxyFunction World -> nat ->
    list (World -> num * World) -> option string -> World -> Generator * World;
  (* compare.run(...) and compare.save_pandas_table(...) *)
  compare_run :
    dict Model -> dict Metric -> string -> nat -> bool -> string -> bool -> bool ->
    W World DataFrame;
  save_pandas_table : string -> DataFrame -> W World unit;
  (* numpy and scipy *)
  np_exp : num -> num;
  np_sqrt : num -> num;
  beta_pdf : num -> num -> num -> num;
  np_random_random : World -> num * World;
  np_random_normal : num -> num -> World -> num * World
}.

(* ================================================================== *)
(** ** The experiment *)

Section Experiment.

Variable E : Env.

Local Abbreviation World := (World E).
Local Abbreviation Generator := (Generator E).
Local Abbreviation Model := (Model E).
Local Open Scope world_scope.

(** The attributes of an [Experiment] object.  [defaults] groups the seven
    attributes that [_set_defaults] assigns ([main_effect], [treatment_effect],
    [treatment_propensity], [noise], [treatment_function], [outcome_function]
    and [cate]). *)
Record Experiment : Type := {
  name : option string;
  results : list DataFrame;
  generators : list (Generator * nat);
  models : list Model;
  metrics : dict Metric;
  seed : option Z;
  defaults : CausalMechanism World;
  trained : bool;
  count : nat;
  directory : string
}.

Definition with_results (r : list DataFrame) (self : Experiment) : Experiment :=
  {| name := name self; results := r; generators := generators self;
     models := models self; metrics := metrics self; seed := seed self;
     defaults := defaults self; trained := trained self; count := count self;
     directory := directory self |}.

Definition with_generators (g : list (Generator * nat)) (self : Experiment) : Experiment :=
  {| name := name self; results := results self; generators := g;
     models := models self; metrics := metrics self; seed := seed self;
     defaults := defaults self; trained := trained self; count := count self;
     directory := directory self |}.

Definition with_models (m : list Model) (self : Experiment) : Experiment :=
  {| name := name self; results := results self; generators := generators self;
     models := m; metrics := metrics self; seed := seed self;
     defaults := defaults self; trained := trained self; count := count self;
     directory := directory self |}.

Definition with_metrics (m : dict Metric) (self : Experiment) : Experiment :=
  {| name := name self; results := results self; generators := generators self;
     models := models self; metrics := m; seed := seed self;
     defaults := defaults self; trained := trained self; count := count self;
     directory := directory self |}.

Definition with_defaults (d : CausalMechanism World) (self : Experiment) : Experiment :=
  {| name := name self; results := results self; generators := generators self;
     models := models self; metrics := metrics self; seed := seed self;
     defaults := d; trained := trained self; count := count self;
     directory := directory self |}.

Definition with_trained (t : bool) (self : Experiment) : Experiment :=
  {| name := name self; results := results self; generators := generators self;
     models := models self; metrics := metrics self; seed := seed self;
     defaults := defaults self; trained := t; count := count self;
     directory := directory self |}.

Definition with_count (c : nat) (self : Experiment) : Experiment :=
  {| name := name self; results := results self; generators := generators self;
     models := models self; metrics := metrics self; seed := seed self;
     defaults := defaults self; trained := trained self; count := c;
     directory := directory self |}.

(** [a <= b] on numbers; false as soon as one side is [nan]. *)
Definition nleb (a b : num) : bool :=
  match a, b with
  | NaN, _ | _, NaN => false
  | Fin x, Fin y => Qle_bool x y
  | NInf, _ | _, PInf => true
  | _, _ => false
  end.

Definition half : num := Fin (1 # 2).
Definition third : num := (of_Z 1 / of_Z 3)%num.

(** [1 if np.random.random() <= propensity else 0] *)
Definition bernoulli_treatment (propensity noise : num) (w : World) : num * World :=
  let (u, w') := np_random_random E w in
  (if nleb u propensity then of_Z 1 else of_Z 0, w').

(** [1 + 1 / (1 + np.exp(-20 * (v - 1 / 3)))] *)
Definition sigmoid_factor (v : num) : num :=
  (of_Z 1 + of_Z 1 / (of_Z 1 + np_exp E (of_Z (-20) * (v - third))))%num.

(** [lambda x: (1 + 1 / (1 + np.exp(-20 * (x[0] - 1 / 3))))
               * (1 + 1 / (1 + np.exp(-20 * (x[1] - 1 / 3))))] *)
Definition default_treatment_effect (x : list num) : result num :=
  rbind (index_at x 0) (fun x0 =>
  rbind (index_at x 1) (fun x1 =>
  Ok (sigmoid_factor x0 * sigmoid_factor x1)%num)).

(** The functions assigned by [_set_defaults]. *)
Definition default_mechanism : CausalMechanism World := {|
  (* lambda x: 2 * x[0] - 1 *)
  mech_main_effect := fun x =>
    rbind (index_at x 0) (fun x0 => Ok (of_Z 2 * x0 - of_Z 1)%num);
  mech_treatment_effect := default_treatment_effect;
  (* lambda x: (1 + beta.pdf(x[0], 2, 4)) / 4 *)
  mech_treatment_propensity := fun x =>
    rbind (index_at x 0) (fun x0 =>
    Ok ((of_Z 1 + beta_pdf E x0 (of_Z 2) (of_Z 4)) / of_Z 4)%num);
  (* lambda: 0.05 * np.random.normal(0, 1) *)
  mech_noise := fun w =>
    let (z, w') := np_random_normal E (of_Z 0) (of_Z 1) w in
    ((Fin (5 # 100) * z)%num, w');
  (* lambda x: self.treatment_effect(x) *)
  mech_cate := fun x => default_treatment_effect x;
  mech_treatment_function := bernoulli_treatment;
  (* lambda main, treat, treat_eff, noise: main + (treat - 0.5) * treat_eff + noise *)
  mech_outcome_function := fun main treat treat_eff noise =>
    (main + (treat - half) * treat_eff + noise)%num
|}.

Definition _set_defaults (self : Experiment) : Experiment :=
  with_defaults default_mechanism self.

(** [clear]: completely clear generated data, but keep the models. *)
Definition clear (self : Experiment) : Experiment :=
  let self := with_results [] self in
  let self := with_generators [] self in
  let self := _set_defaults self in
  let self := with_trained false self in
  self.

(** [self.results[0]['eATE'].iat[0]] *)
Definition get_result (self : Experiment) : result num :=
  rbind (index_at (results self) 0) (fun df =>
  match column_position "eATE" (columns df) with
  | None => Err KeyError
  | Some j =>
      rbind (index_at (values df) 0) (fun row => index_at row j)
  end).

Definition add_custom_generator (generator : Generator) (sample_size : nat)
    (self : Experiment) : Experiment :=
  with_generators (generators self ++ [(generator, sample_size)]) self.

Definition add_custom_model (model : Model) (self : Experiment) : Experiment :=
  with_models (models self ++ [model]) self.

(** [self.metrics[name] = scoring_function] *)
Definition add_custom_metric (name : string) (scoring_function : Metric)
    (self : Experiment) : Experiment :=
  with_metrics (dict_set name scoring_function (metrics self)) self.

(** *** Metrics *)

Definition add_true_ate : Experiment -> Experiment :=
  add_custom_metric "True ATE" Metrics.true_ate.

Definition add_estimated_ate : Experiment -> Experiment :=
  add_custom_metric "Est. ATE" Metrics.estimated_ate.

Definition add_mean_squared_error : Experiment -> Experiment :=
  add_custom_metric "PEHE (MSE)" Metrics.mean_squared_error.

Definition add_pehe_mse : Experiment -> Experiment := add_mean_squared_error.

Definition add_absolute_error : Experiment -> Experiment :=
  add_custom_metric "PEHE (MAE)" Metrics.absolute_error.

Definition add_pehe_mae : Experiment -> Experiment := add_absolute_error.

Definition add_ate_error : Experiment -> Experiment :=
  add_custom_metric "eATE" Metrics.ate_error.

Definition add_ate_percent_error : Experiment -> Experiment :=
  add_custom_metric "eATE (%)" Metrics.ate_percent_error.

Definition add_all_metrics (self : Experiment) : Experiment :=
  add_pehe_mae
    (add_pehe_mse
       (add_estimated_ate
          (add_true_ate
             (add_ate_percent_error
                (add_ate_error self))))).

(** *** Running the experiment *)

Definition wread {A} (f : World -> A) : W World A := fun w => (Ok (f w), w).
Definition wmodify (f : World -> World) : W World unit := fun w => (Ok tt, f w).

(** [xs[-1]] *)
Definition last_item {A} (xs : list A) : result A :=
  match rev xs with
  | x :: _ => Ok x
  | [] => Err IndexError
  end.

(** [model_dictionary[str(model)] = model] for every model, in order. *)
Definition model_dictionary_of (ms : list Model) : dict Model :=
  fold_left (fun d model => dict_set (model_str E model) model d) ms [].

(** The body of the loop over the generators, up to the array of scores of
    one generator. *)
Definition score_generator (self : Experiment)
    (save_data save_graphs show_graphs : bool)
    (model_dictionary : dict Model) (metric_dictionary : dict Metric)
    (generator : Generator) (sample_size : nat) : W World ndarray :=
  old <- wread (get_directory E generator) ;;
  wmodify (set_directory E generator (directory self ++ "/" ++ drop5 old)) ;;;
  generate_data E generator sample_size save_data save_graphs show_graphs ;;;
  dir <- wread (get_directory E generator) ;;
  files <- wread (generated_data_files E generator) ;;
  data_file <- wpure (last_item files) ;;
  table <- compare_run E model_dictionary metric_dictionary
             (dir ++ data_file) sample_size save_data dir show_graphs save_graphs ;;
  wret (to_numpy table).

(** [for generator, sample_size in self.generators: ... results = results + result] *)
Fixpoint accumulate (self : Experiment)
    (save_data save_graphs show_graphs : bool)
    (model_dictionary : dict Model) (metric_dictionary : dict Metric)
    (gens : list (Generator * nat)) (acc : ndarray) : W World ndarray :=
  match gens with
  | [] => wret acc
  | (generator, sample_size) :: rest =>
      result <- score_generator self save_data save_graphs show_graphs
                  model_dictionary metric_dictionary generator sample_size ;;
      acc' <- wpure (np_add acc result) ;;
      accumulate self save_data save_graphs show_graphs
        model_dictionary metric_dictionary rest acc'
  end.

(** [result.insert(0, list(model_dictionary.keys())[index])] for the rows of
    a two-dimensional array. *)
Fixpoint label_rows (names : list string) (position : nat) (rows : list (list num))
    : result (list (string * list num)) :=
  match rows with
  | [] => Ok []
  | row :: rest =>
      rbind (index_at names position) (fun label =>
      rbind (label_rows names (S position) rest) (fun more =>
      Ok ((label, row) :: more)))
  end.

(** [for index, result in enumerate(results): result = list(result) ...]:
    the items of a one-dimensional array are scalars, and [list] of a scalar
    raises [TypeError]. *)
Definition final_rows (names : list string) (averaged : ndarray)
    : result (list (string * list num)) :=
  match averaged with
  | Arr1 [] => Ok []
  | Arr1 (_ :: _) => Err TypeError
  | Arr2 _ rows => label_rows names 0 rows
  end.

(** [pd.DataFrame(final_results, columns=columns).set_index('method_name')]:
    every row must have as many cells as there are columns. *)
Definition make_frame (rows : list (string * list num)) (metric_names : list string)
    : result DataFrame :=
  if forallb (fun r => (List.length (snd r) =? List.length metric_names)%nat) rows
  then Ok {| index := map fst rows; columns := metric_names; values := map snd rows |}
  else Err ValueError.

(** What a method leaves behind: its result or exception, the experiment
    and the world. *)
Definition Outcome : Type := (result unit * Experiment * World)%type.

Definition run (save_data save_graphs show_graphs : bool)
    (self : Experiment) (w : World) : Outcome :=
  let model_dictionary := model_dictionary_of (models self) in
  let metric_dictionary := metrics self in
  let zeros := Arr1 (map (fun _ => of_Z 0) metric_dictionary) in
  match accumulate self save_data save_graphs show_graphs
          model_dictionary metric_dictionary (generators self) zeros w with
  | (Err e, w1) => (Err e, self, w1)
  | (Ok summed, w1) =>
      let averaged := np_div summed (of_nat (List.length (generators self))) in
      match rbind (final_rows (keys model_dictionary) averaged)
                  (fun final_results => make_frame final_results (keys metric_dictionary)) with
      | Err e => (Err e, self, w1)
      | Ok final_result =>
          let self1 := with_results (results self ++ [final_result]) self in
          match save_pandas_table E (directory self1 ++ "/final_table") final_result w1 with
          | (Err e, w2) => (Err e, self1, w2)
          | (Ok _, w2) => (Ok tt, with_trained true self1, w2)
          end
      end
  end.

(** *** Testing a specific set *)

(** [for model in self.models: ... df.loc[len(df.index)] = row] *)
Fixpoint test_models (scorers : list Metric) (test_set : Features E)
    (truth : list num) (ms : list Model) (df : list (string * list num))
    : W World (list (string * list num)) :=
  match ms with
  | [] => wret df
  | model :: rest =>
      predictions <- estimate_causal_effect E model test_set ;;
      scores <- wpure (comprehension (fun metric : Metric => metric truth predictions) scorers) ;;
      test_models scorers test_set truth rest (df ++ [(model_str E model, scores)])
  end.

Definition string_of_nat (n : nat) : string :=
  DecimalString.NilEmpty.string_of_uint (Nat.to_uint n).

(** [truth_set] stands for [truth_set.to_numpy()], the sequence of expected
    effects. *)
Definition test_specific_set (test_set : Features E) (truth_set : list num)
    (self : Experiment) (w : World) : Outcome :=
  if negb (trained self) then (Err AssertionError, self, w)
  else
    let self1 := with_count (count self + 1) self in
    let column_names := keys (metrics self1) in
    match test_models (dict_values (metrics self1)) test_set truth_set (models self1) [] w with
    | (Err e, w1) => (Err e, self1, w1)
    | (Ok rows, w1) =>
        let df := {| index := map fst rows; columns := column_names; values := map snd rows |} in
        let self2 := with_results (results self1 ++ [df]) self1 in
        match save_pandas_table E
                (directory self2 ++ "/table_comparing_specific_value_" ++ string_of_nat (count self2))
                df w1 with
        | (Err e, w2) => (Err e, self2, w2)
        | (Ok _, w2) => (Ok tt, self2, w2)
        end
    end.

(** What [test_specific_set] needs of its collaborators to return when it
    is called in the world [w]: the first model predicts on the supplied set
    in [w], every metric returns a score of the supplied truth against those
    predictions, and so on for the next model in the world the one before
    left. *)
Fixpoint scoring_returns (test_set : Features E) (truth : list num)
    (scorers : list Metric) (ms : list Model) (w : World) : Prop :=
  match ms with
  | [] => True
  | model :: rest =>
      exists predictions w',
        estimate_causal_effect E model test_set w = (Ok predictions, w') /\
        (forall metric : Metric, In metric scorers ->
           exists score, metric truth predictions = Ok score) /\
        scoring_returns test_set truth scorers rest w'
  end.

(** ... and saving the table of those scores, under the name the call
    gives it and in the world the last model left, does not raise. *)
Definition saving_returns (test_set : Features E) (truth_set : list num)
    (self : Experiment) (w : World) : Prop :=
  forall rows w1,
    test_models (dict_values (metrics self)) test_set truth_set (models self) [] w
      = (Ok rows, w1) ->
    exists w2,
      save_pandas_table E
        (directory self ++ "/table_comparing_specific_value_"
         ++ string_of_nat (count self + 1))
        {| index := map fst rows; columns := keys (metrics self);
           values := map snd rows |}
        w1
      = (Ok tt, w2).

(** *** Data generators *)

(** [lambda features: [[feat] for feat in features]] *)
Definition identity_proxy : ProxyFunction World :=
  fun features => wret (map (fun feat => [feat]) features).

Definition add_custom_generated_data (mechanism : CausalMechanism World)
    (dimensions : nat) (proxy_function : option (ProxyFunction World))
    (distributions : option (list (World -> num * World)))
    (sample_size : nat) (name : option string)
    (self : Experiment) (w : World) : Experiment * World :=
  let distributions :=
    match distributions with
    | None => [np_random_random E]
    | Some d => d
    end in
  let proxy_function :=
    match proxy_function with
    | None => identity_proxy
    | Some p => p
    end in
  let (generator, w') :=
    ProxyGenerator E mechanism proxy_function dimensions distributions name w in
  (add_custom_generator generator sample_size self, w').

Definition add_all_effects_generator (dimensions sample_size : nat)
    (self : Experiment) : World -> Experiment * World :=
  add_custom_generated_data (defaults self) dimensions None None
    sample_size (Some "all_effects") self.

Definition no_treatment_effect_mechanism (self : Experiment) : CausalMechanism World := {|
  mech_main_effect := mech_main_effect (defaults self);
  mech_treatment_effect := fun x => Ok (of_Z 0);
  mech_treatment_propensity := mech_treatment_propensity (defaults self);
  mech_noise := mech_noise (defaults self);
  (* E[Y1 - Y0 | X] = 0 as there is no dependence on treatment *)
  mech_cate := fun x => Ok (of_Z 0);
  mech_treatment_function := mech_treatment_function (defaults self);
  mech_outcome_function := mech_outcome_function (defaults self)
|}.

Definition add_no_treatment_effect_generator (dimensions sample_size : nat)
    (self : Experiment) : World -> Experiment * World :=
  add_custom_generated_data (no_treatment_effect_mechanism self) dimensions None None
    sample_size (Some "no_treatment_effect") self.

Definition only_treatment_effect_mechanism (self : Experiment) : CausalMechanism World := {|
  mech_main_effect := fun x => Ok (of_Z 0);
  mech_treatment_effect := mech_treatment_effect (defaults self);
  mech_treatment_propensity := fun x => Ok half;
  mech_noise := mech_noise (defaults self);
  (* cate = lambda x: treatment_effect(x) *)
  mech_cate := fun x => mech_treatment_effect (defaults self) x;
  mech_treatment_function := mech_treatment_function (defaults self);
  mech_outcome_function := mech_outcome_function (defaults self)
|}.

Definition add_only_treatment_effect_generator (dimensions sample_size : nat)
    (self : Experiment) : World -> Experiment * World :=
  add_custom_generated_data (only_treatment_effect_mechanism self) dimensions None None
    sample_size (Some "only_treatment_effect") self.

(** [[features[0]], [features[1]], [features[2]], [features[3]], [features[4]]] *)
Definition five_proxies : ProxyFunction World :=
  fun features =>
    f0 <- wpure (index_at features 0) ;;
    f1 <- wpure (index_at features 1) ;;
    f2 <- wpure (index_at features 2) ;;
    f3 <- wpure (index_at features 3) ;;
    f4 <- wpure (index_at features 4) ;;
    wret [[f0]; [f1]; [f2]; [f3]; [f4]].

(** [lambda x: 1 - np.sqrt((x[0] - 0.5) ** 2 + (x[1] - 0.5) ** 2)] *)
Definition centre_propensity (x : list num) : result num :=
  rbind (index_at x 0) (fun x0 =>
  rbind (index_at x 1) (fun x1 =>
  Ok (of_Z 1 - np_sqrt E (nsquare (x0 - half) + nsquare (x1 - half)))%num)).

(** [lambda: np.random.normal(0, 0.01)] *)
Definition small_noise : World -> num * World :=
  np_random_normal E (of_Z 0) (Fin (1 # 100)).

(** [lambda main, treat, treat_eff, noise: main + treat * treat_eff + noise] *)
Definition additive_outcome (main treat treat_eff noise : num) : num :=
  (main + treat * treat_eff + noise)%num.

Definition constant_treatment_effect_mechanism (self : Experiment)
    : CausalMechanism World :=
  (* treatment_effect = lambda x: 0.3 *)
  let treatment_effect := fun x : list num => Ok (Fin (3 # 10)) in
  {|
    mech_main_effect := mech_main_effect (defaults self);
    mech_treatment_effect := treatment_effect;
    mech_treatment_propensity := centre_propensity;
    mech_noise := small_noise;
    (* cate = lambda x: treatment_effect(x) *)
    mech_cate := fun x => treatment_effect x;
    mech_treatment_function := bernoulli_treatment;
    mech_outcome_function := additive_outcome
  |}.

Definition add_constant_treatment_effect_generator (dimensions sample_size : nat)
    (self : Experiment) : World -> Experiment * World :=
  add_custom_generated_data (constant_treatment_effect_mechanism self) dimensions
    (Some five_proxies) None sample_size (Some "spiked_generator") self.

(** [np.random.normal(features[i], sd)] *)
Definition noisy_copy (features : list num) (i : nat) (sd : num) : W World num :=
  f <- wpure (index_at features i) ;;
  wdraw (np_random_normal E f sd).

Definition noisy_proxies : ProxyFunction World :=
  fun features =>
    a0 <- noisy_copy features 0 (Fin (3 # 10)) ;;
    a1 <- noisy_copy features 0 (Fin (3 # 10)) ;;
    a2 <- noisy_copy features 0 (Fin (3 # 10)) ;;
    b0 <- noisy_copy features 1 (Fin (25 # 100)) ;;
    b1 <- noisy_copy features 1 (Fin (25 # 100)) ;;
    b2 <- noisy_copy features 1 (Fin (25 # 100)) ;;
    f2 <- wpure (index_at features 2) ;;
    f3 <- wpure (index_at features 3) ;;
    f4 <- wpure (index_at features 4) ;;
    wret [[a0; a1; a2]; [b0; b1; b2]; [f2]; [f3]; [f4]].

Definition noisy_spiked_proxy_mechanism (self : Experiment)
    : CausalMechanism World := {|
  mech_main_effect := mech_main_effect (defaults self);
  (* treatment_effect = lambda x: x[0] ** 2 + x[1] ** 2 *)
  mech_treatment_effect := fun x =>
    rbind (index_at x 0) (fun x0 =>
    rbind (index_at x 1) (fun x1 =>
    Ok (nsquare x0 + nsquare x1)%num));
  mech_treatment_propensity := centre_propensity;
  mech_noise := small_noise;
  (* E[Y1 - Y0 | X] = E[Y1 | X] - E[Y0 | X] = 1 * treat_eff = treat_eff(x) *)
  (* cate = lambda x: 1 *)
  mech_cate := fun x => Ok (of_Z 1);
  mech_treatment_function := bernoulli_treatment;
  mech_outcome_function := additive_outcome
|}.

Definition add_noisy_spiked_proxy_generator (dimensions sample_size : nat)
    (self : Experiment) : World -> Experiment * World :=
  add_custom_generated_data (noisy_spiked_proxy_mechanism self) dimensions
    (Some noisy_proxies) None sample_size (Some "spiked_proxy_generator") self.

(** The effect of the treatment on the outcome of one unit: the outcome
    function at [treat = 1] minus the outcome function at [treat = 0], all
    else (the features, hence the main effect and the treatment effect, and
    the noise drawn) being equal.  Where it does not depend on the noise, it
    is the conditional expectation [E[Y1 - Y0 | x]] whatever the noise
    distribution. *)
Definition unit_effect (m : CausalMechanism World) (x : list num) (noise : num)
    : result num :=
  rbind (mech_main_effect m x) (fun main =>
  rbind (mech_treatment_effect m x) (fun treat_eff =>
  Ok (mech_outcome_function m main (of_Z 1) treat_eff noise
      - mech_outcome_function m main (of_Z 0) treat_eff noise)%num)).

End Experiment.

Arguments name {E} _.
Arguments results {E} _.
Arguments generators {E} _.
Arguments models {E} _.
Arguments metrics {E} _.
Arguments seed {E} _.
Arguments defaults {E} _.
Arguments trained {E} _.
Arguments count {E} _.
Arguments directory {E} _.

(** The six assignments that [add_all_metrics] makes, on the mapping alone. *)
Definition set_all_metrics (d : dict Metric) : dict Metric :=
  dict_set "PEHE (MAE)" Metrics.absolute_error
    (dict_set "PEHE (MSE)" Metrics.mean_squared_error
       (dict_set "Est. ATE" Metrics.estimated_ate
          (dict_set "True ATE" Metrics.true_ate
             (dict_set "eATE (%)" Metrics.ate_percent_error
                (dict_set "eATE" Metrics.ate_error d))))).

(** The column labels of [add_all_metrics] on an experiment without metrics. *)
Definition builtin_metric_names : list string :=
  ["eATE"; "eATE (%)"; "True ATE"; "Est. ATE"; "PEHE (MSE)"; "PEHE (MAE)"].

(* ================================================================== *)
(** ** A small environment

    Collaborators simple enough to run the embedding on concrete
    experiments: the world counts the calls made, a model predicts its
    input, every generator leaves one data file, and [compare.run] scores
    every model with every metric as the number of samples asked for. *)

Module Demo.

Definition constant_table (ms : dict nat) (mets : dict Metric) (samples : nat)
    : DataFrame := {|
  index := keys ms;
  columns := keys mets;
  values := map (fun _ => map (fun _ => of_nat samples) mets) ms
|}.

Definition env : Env := {|
  World := nat;
  Generator := nat;
  Model := nat;
  Features := list num;
  model_str := fun m => ("model_" ++ string_of_nat m)%string;
  estimate_causal_effect := fun m test_set w => (Ok test_set, S w);
  get_directory := fun g w => ("data/generator_" ++ string_of_nat g)%string;
  set_directory := fun g d w => w;
  generate_data := fun g n _ _ _ w => (Ok tt, S w);
  generated_data_files := fun g w => ["/generated_data.csv"];
  ProxyGenerator := fun _ _ _ _ _ w => (w, S w);
  compare_run := fun ms mets _ samples _ _ _ _ w =>
    (Ok (constant_table ms mets samples), S w);
  save_pandas_table := fun _ _ w => (Ok tt, S w);
  np_exp := fun _ => of_Z 1;
  np_sqrt := fun x => x;
  beta_pdf := fun _ _ _ => of_Z 1;
  np_random_random := fun w => (Fin (1 # 2), S w);
  np_random_normal := fun mean _ w => (mean, S w)
|}.

(** An experiment as [reset] leaves it. *)
Definition fresh : Experiment env := {|
  name := None;
  results := [];
  generators := [];
  models := [];
  metrics := [];
  seed := None;
  defaults := default_mechanism env;
  trained := false;
  count := 0;
  directory := "experiments/experiment_randomized"
|}.

(** Two generators of 2 and of 4 samples, one model, one metric. *)
Definition two_generators : Experiment env :=
  add_custom_model (E:=env) 7
    (add_ate_error
       (add_custom_generator (E:=env) 1 4
          (add_custom_generator (E:=env) 0 2 fresh))).

(** Two generators, two models and the six built-in metrics. *)
Definition benchmark : Experiment env :=
  add_custom_model (E:=env) 8
    (add_custom_model (E:=env) 7
       (add_all_metrics
          (add_custom_generator (E:=env) 1 4
             (add_custom_generator (E:=env) 0 2 fresh)))).

(** No generator, one metric. *)
Definition no_generator : Experiment env := add_ate_error fresh.

(** A table holding an absolute ATE error of 3 for one model. *)
Definition one_table : Experiment env :=
  with_results
    [{| index := ["model_7"]; columns := ["True ATE"; "eATE"];
        values := [[of_Z 5; of_Z 3]] |}]
    fresh.

End Demo.

(** A second small environment, with models that must be fitted: the world
    records whether [compare.run] has trained them, and a model asked to
    predict before that raises. *)
Module Fitting.

Definition env : Env := {|
  World := bool;
  Generator := nat;
  Model := nat;
  Features := list num;
  model_str := fun m => ("model_" ++ string_of_nat m)%string;
  estimate_causal_effect := fun m test_set fitted =>
    if fitted then (Ok test_set, fitted)
    else (Err (External "NotFittedError"), fitted);
  get_directory := fun g w => ("data/generator_" ++ string_of_nat g)%string;
  set_directory := fun g d w => w;
  generate_data := fun g n _ _ _ w => (Ok tt, w);
  generated_data_files := fun g w => ["/generated_data.csv"];
  ProxyGenerator := fun _ _ _ _ _ w => (0, w);
  compare_run := fun ms mets _ samples _ _ _ _ _ =>
    (Ok (Demo.constant_table ms mets samples), true);
  save_pandas_table := fun _ _ w => (Ok tt, w);
  np_exp := fun _ => of_Z 1;
  np_sqrt := fun x => x;
  beta_pdf := fun _ _ _ => of_Z 1;
  np_random_random := fun w => (Fin (1 # 2), w);
  np_random_normal := fun mean _ w => (mean, w)
|}.

Definition fresh : Experiment env := {|
  name := None;
  results := [];
  generators := [];
  models := [];
  metrics := [];
  seed := None;
  defaults := default_mechanism env;
  trained := false;
  count := 0;
  directory := "experiments/experiment_randomized"
|}.

(** One generator, two models and the six built-in metrics. *)
Definition benchmark : Experiment env :=
  add_custom_model (E:=env) 8
    (add_custom_model (E:=env) 7
       (add_all_metrics
          (add_custom_generator (E:=env) 0 3 fresh))).

End Fitting.

(* ================================================================== *)
(** ** Construction, reset and the remaining generators

    The collaborators these methods call on top of the environment:
    [np.random.seed], the clock, [os.makedirs], scipy's
    [multivariate_normal(...).pdf], [np.sin], [np.pi], [np.clip],
    [np.random.uniform], pyro's [Bernoulli(...).sample()] and the
    constructor [data_generator.CevaeGenerator].

    An [Experiment] record holds the attributes of an object, not its
    identity.  The methods that read the identity, through
    [object.__hash__()], take it as the argument [identity_hash]: the
    integer Python gives for the object the method is called on, fixed for
    the life of that object and different from one live object to the
    next. *)

Definition with_seed {E} (s : option Z) (self : Experiment E) : Experiment E :=
  {| name := name self; results := results self; generators := generators self;
     models := models self; metrics := metrics self; seed := s;
     defaults := defaults self; trained := trained self; count := count self;
     directory := directory self |}.

Definition with_directory {E} (d : string) (self : Experiment E) : Experiment E :=
  {| name := name self; results := results self; generators := generators self;
     models := models self; metrics := metrics self; seed := seed self;
     defaults := defaults self; trained := trained self; count := count self;
     directory := d |}.

(** [f"{z}"] for an integer. *)
Definition string_of_Z (z : Z) : string :=
  DecimalString.NilZero.string_of_int (Z.to_int z).

Section Construction.

Variable E : Env.
Variable np_random_seed : Z -> W (World E) unit.
Variable strftime_now : World E -> string.
Variable os_makedirs : string -> W (World E) unit.

Local Open Scope world_scope.

(** [__hash__], as [reset] formats it with [f"{self.__hash__()}"]: the name
    when there is one, [super().__hash__()], the hash of this very object,
    otherwise. *)
Definition __hash__ (identity_hash : Z) (self : Experiment E) : string :=
  match name self with
  | Some n => n
  | None => string_of_Z identity_hash
  end.

(** [reset(seed)], on the object whose hash is [identity_hash]. *)
Definition reset (identity_hash : Z) (seed : option Z) (self : Experiment E)
    (w : World E) : Outcome E :=
  let self := with_results [] self in
  let self := with_generators [] self in
  let self := with_models [] self in
  let self := with_metrics [] self in
  match (match seed with
         | Some s => np_random_seed s w
         | None => (Ok tt, w)
         end) with
  | (Err e, w1) => (Err e, self, w1)
  | (Ok _, w1) =>
      let self := with_seed seed self in
      let self := _set_defaults self in
      let self := with_trained false self in
      let self := with_count 0 self in
      let seed_text :=
        match seed with
        | Some s => ("seeded_" ++ string_of_Z s)%string
        | None => "randomized"
        end in
      let datetime_str := strftime_now w1 in
      let hash := __hash__ identity_hash self in
      let self :=
        with_directory
          ("experiments/experiment_" ++ seed_text ++ "_" ++ datetime_str ++ "_" ++ hash)
          self in
      match os_makedirs (directory self) w1 with
      | (Err e, w2) => (Err e, self, w2)
      | (Ok _, w2) => (Ok tt, self, w2)
      end
  end.

(** An object that has its [name] and nothing else yet; [reset] assigns
    every other attribute before it reads one. *)
Definition unset (name : option string) : Experiment E := {|
  name := name;
  results := [];
  generators := [];
  models := [];
  metrics := [];
  seed := None;
  defaults := default_mechanism E;
  trained := false;
  count := 0;
  directory := ""
|}.

(** [Experiment(seed, name)]: [self.name = name; self.reset(seed)], for the
    new object, whose hash is [identity_hash]. *)
Definition __init__ (identity_hash : Z) (seed : option Z) (name : option string)
    (w : World E) : result (Experiment E) * World E :=
  match reset identity_hash seed (unset name) w with
  | (Ok _, self, w') => (Ok self, w')
  | (Err e, _, w') => (Err e, w')
  end.

(** *** The generator with constant proxied treatment effect *)

Variable multivariate_normal_pdf : num -> num * num -> num * num -> num.

(** [[features[0], features[0], features[0]], [features[1], features[1],
     features[1]], [features[2]], [features[3]], [features[4]]] *)
Definition triple_proxies : ProxyFunction (World E) :=
  fun features =>
    a0 <- wpure (index_at features 0) ;;
    a1 <- wpure (index_at features 0) ;;
    a2 <- wpure (index_at features 0) ;;
    b0 <- wpure (index_at features 1) ;;
    b1 <- wpure (index_at features 1) ;;
    b2 <- wpure (index_at features 1) ;;
    f2 <- wpure (index_at features 2) ;;
    f3 <- wpure (index_at features 3) ;;
    f4 <- wpure (index_at features 4) ;;
    wret [[a0; a1; a2]; [b0; b1; b2]; [f2]; [f3]; [f4]].

Definition constant_proxied_treatment_effect_mechanism (self : Experiment E)
    : CausalMechanism (World E) :=
  (* std = 0.01; distr = multivariate_normal(cov=[[std, 0], [0, std]],
     mean=[0.2, 0.6], seed=42) *)
  let std := Fin (1 # 100) in
  let distr_pdf := multivariate_normal_pdf std (Fin (2 # 10), Fin (6 # 10)) in
  (* treatment_effect = lambda x: distr.pdf([x[0], x[1]]) / 10 *)
  let treatment_effect := fun x : list num =>
    rbind (index_at x 0) (fun x0 =>
    rbind (index_at x 1) (fun x1 =>
    Ok (distr_pdf (x0, x1) / of_Z 10)%num)) in
  {|
    mech_main_effect := mech_main_effect (defaults self);
    mech_treatment_effect := treatment_effect;
    mech_treatment_propensity := centre_propensity E;
    mech_noise := small_noise E;
    (* cate = lambda x: treatment_effect(x) *)
    mech_cate := fun x => treatment_effect x;
    mech_treatment_function := bernoulli_treatment E;
    mech_outcome_function := additive_outcome
  |}.

Definition add_constant_proxied_treatment_effect_generator
    (dimensions sample_size : nat) (self : Experiment E)
    : World E -> Experiment E * World E :=
  add_custom_generated_data (constant_proxied_treatment_effect_mechanism self)
    dimensions (Some triple_proxies) None sample_size (Some "spiked_generator") self.

(** *** Generators of the second kind *)

Variable CevaeGenerator :
  list (World E -> num * World E) -> ProxyFunction (World E) ->
  (list num -> W (World E) num) -> (list num -> num -> W (World E) num) ->
  nat -> option string -> World E -> Generator E * World E.
Variable np_random_uniform : World E -> num * World E.
Variable np_sin : num -> num.
Variable np_pi : num.
Variable np_clip : num -> num -> num -> num.
Variable bernoulli_sample : num -> World E -> num * World E.

Definition add_cevae_generated_data
    (distributions : option (list (World E -> num * World E)))
    (proxy_function : option (ProxyFunction (World E)))
    (treatment_function : list num -> W (World E) num)
    (outcome_function : list num -> num -> W (World E) num)
    (dimensions sample_size : nat) (name : option string)
    (self : Experiment E) (w : World E) : Experiment E * World E :=
  let distributions :=
    match distributions with
    | None => [np_random_random E]
    | Some d => d
    end in
  let proxy_function :=
    match proxy_function with
    | None => identity_proxy E
    | Some p => p
    end in
  let (generator, w') :=
    CevaeGenerator distributions proxy_function treatment_function outcome_function
      dimensions name w in
  (add_custom_generator generator sample_size self, w').

(** [lambda z: dist.Bernoulli(np.clip(np.sin(np.pi * z[0] * z[1]), 0.1, 0.9))
               .sample().cpu().item()] *)
Definition synthetic_treatment (z : list num) : W (World E) num :=
  z0 <- wpure (index_at z 0) ;;
  z1 <- wpure (index_at z 1) ;;
  wdraw (bernoulli_sample
           (np_clip (np_sin (np_pi * z0 * z1)%num) (Fin (1 # 10)) (Fin (9 # 10)))).

(** [lambda z, t: np.sin(np.pi * z[0] * z[1]) + 2 * (z[2] - 0.5) ** 2 + z[3]
                  + 0.5 * z[4] + (t - 0.5) * (z[0] + z[1]) / 2 + noise],
    with [noise = 0]. *)
Definition synthetic_outcome (z : list num) (t : num) : result num :=
  let noise := of_Z 0 in
  rbind (index_at z 0) (fun a0 =>
  rbind (index_at z 1) (fun a1 =>
  rbind (index_at z 2) (fun z2 =>
  rbind (index_at z 3) (fun z3 =>
  rbind (index_at z 4) (fun z4 =>
  rbind (index_at z 0) (fun z0 =>
  rbind (index_at z 1) (fun z1 =>
  Ok (np_sin (np_pi * a0 * a1)
      + of_Z 2 * nsquare (z2 - half)
      + z3
      + half * z4
      + (t - half) * (z0 + z1) / of_Z 2
      + noise)%num))))))).

Definition add_synthetic_generator (dimensions sample_size : nat)
    (self : Experiment E) : World E -> Experiment E * World E :=
  add_cevae_generated_data (Some [np_random_uniform]) (Some (five_proxies E))
    synthetic_treatment (fun z t => wpure (synthetic_outcome z t))
    dimensions sample_size (Some "easy_1_generator") self.

End Construction.

(** Collaborators for the small environment: seeds outside
    [0 .. 2**32 - 1] are refused, as numpy does. *)
Module DemoSystem.

Definition np_random_seed (s : Z) : W (World Demo.env) unit :=
  fun w =>
    if ((0 <=? s) && (s <? 2 ^ 32))%Z then (Ok tt, S w) else (Err ValueError, w).

Definition strftime_now (w : World Demo.env) : string := "2022-06-01_12-00-00".

Definition os_makedirs (path : string) : W (World Demo.env) unit :=
  fun w => (Ok tt, S w).

Definition identity_hash : Z := 8795.

Definition reset : option Z -> Experiment Demo.env -> World Demo.env -> Outcome Demo.env :=
  reset np_random_seed strftime_now os_makedirs identity_hash.

(** A trained experiment: [Demo.benchmark] after [run()]. *)
Definition trained_benchmark : Experiment Demo.env :=
  snd (fst (run true true false Demo.benchmark (0 : World Demo.env))).

(** Two models that print alike, and a third. *)
Definition alike_env : Env := {|
  World := nat;
  Generator := nat;
  Model := nat;
  Features := list num;
  model_str := fun m => if (m <? 2)%nat then "forest" else "dragonnet";
  estimate_causal_effect := fun m test_set w => (Ok test_set, S w);
  get_directory := fun g w => "data/generator";
  set_directory := fun g d w => w;
  generate_data := fun g n _ _ _ w => (Ok tt, S w);
  generated_data_files := fun g w => ["/generated_data.csv"];
  ProxyGenerator := fun _ _ _ _ _ w => (w, S w);
  compare_run := fun ms mets _ samples _ _ _ _ w =>
    (Ok (Demo.constant_table ms mets samples), S w);
  save_pandas_table := fun _ _ w => (Ok tt, S w);
  np_exp := fun _ => of_Z 1;
  np_sqrt := fun x => x;
  beta_pdf := fun _ _ _ => of_Z 1;
  np_random_random := fun w => (Fin (1 # 2), S w);
  np_random_normal := fun mean _ w => (mean, S w)
|}.

(** One generator of 3 samples, two models and the six built-in metrics. *)
Definition single_generator : Experiment Demo.env :=
  add_custom_model (E:=Demo.env) 8
    (add_custom_model (E:=Demo.env) 7
       (add_all_metrics
          (add_custom_generator (E:=Demo.env) 0 3 Demo.fresh))).

End DemoSystem.

(* ================================================================== *)
(** * Properties *)

(** ** Dictionaries *)

Section DictFacts.

Context {V : Type}.
Implicit Types (d : dict V) (k q : string) (v : V).

Lemma dict_get_set k v d q :
  dict_get q (dict_set k v d) = if String.eqb q k then Some v else dict_get q d.
Proof.
  induction d as [|[k' v'] rest IH]; simpl.
  - destruct (String.eqb q k); reflexivity.
  - destruct (String.eqb k k') eqn:Ekk; simpl.
    + apply String.eqb_eq in Ekk; subst k'.
      destruct (String.eqb q k); reflexivity.
    + rewrite IH.
      destruct (String.eqb q k') eqn:Eqk'; [|reflexivity].
      apply String.eqb_eq in Eqk'; subst k'.
      rewrite String.eqb_sym, Ekk. reflexivity.
Qed.

Lemma dict_get_set_same k v d : dict_get k (dict_set k v d) = Some v.
Proof. rewrite dict_get_set, String.eqb_refl. reflexivity. Qed.

Lemma dict_get_set_other k v d q :
  q <> k -> dict_get q (dict_set k v d) = dict_get q d.
Proof.
  intros Hne. rewrite dict_get_set.
  apply String.eqb_neq in Hne. rewrite Hne. reflexivity.
Qed.

(** Assigning to a key that is there changes no key and no position. *)
Lemma keys_set_present k v d :
  In k (keys d) -> keys (dict_set k v d) = keys d.
Proof.
  induction d as [|[k' v'] rest IH]; simpl; intros Hin; [contradiction|].
  destruct (String.eqb k k') eqn:Ekk; simpl; [reflexivity|].
  f_equal. apply IH.
  destruct Hin as [Heq|Hin]; [|exact Hin].
  subst k'. rewrite String.eqb_refl in Ekk. discriminate.
Qed.

(** Assigning a new key puts it last. *)
Lemma keys_set_absent k v d :
  ~ In k (keys d) -> keys (dict_set k v d) = keys d ++ [k].
Proof.
  induction d as [|[k' v'] rest IH]; simpl; intros Hnin; [reflexivity|].
  destruct (String.eqb k k') eqn:Ekk; simpl.
  - apply String.eqb_eq in Ekk. subst k'. exfalso. apply Hnin. now left.
  - f_equal. apply IH. intros Hin. apply Hnin. now right.
Qed.

(** Assigning the value a key already has changes nothing. *)
Lemma dict_set_same_value k v d :
  dict_get k d = Some v -> dict_set k v d = d.
Proof.
  induction d as [|[k' v'] rest IH]; simpl; [discriminate|].
  destruct (String.eqb k k') eqn:Ekk; intros Hget.
  - now inversion Hget.
  - f_equal. now apply IH.
Qed.

End DictFacts.

Lemma column_position_nth label cols j :
  column_position label cols = Some j ->
  nth_error cols j = Some label /\
  forall i, i < j -> nth_error cols i <> Some label.
Proof.
  revert j. induction cols as [|c rest IH]; simpl; intros j; [discriminate|].
  destruct (String.eqb label c) eqn:Elc.
  - intros Hj. inversion Hj; subst j. apply String.eqb_eq in Elc. subst c.
    split; [reflexivity|]. intros i Hi. lia.
  - destruct (column_position label rest) as [j'|]; simpl; [|discriminate].
    intros Hj. inversion Hj; subst j.
    destruct (IH j' eq_refl) as [Hnth Hfirst].
    split; [exact Hnth|].
    intros [|i] Hi; simpl.
    + intros Heq. inversion Heq; subst c. rewrite String.eqb_refl in Elc. discriminate.
    + apply Hfirst. lia.
Qed.

Lemma column_position_none label cols :
  column_position label cols = None <-> ~ In label cols.
Proof.
  induction cols as [|c rest IH]; simpl.
  - split; [intros _ []|reflexivity].
  - destruct (String.eqb label c) eqn:Elc.
    + apply String.eqb_eq in Elc. subst c.
      split; [discriminate|]. intros Hn. exfalso. apply Hn. now left.
    + apply String.eqb_neq in Elc.
      destruct (column_position label rest); simpl.
      * split; [discriminate|]. intros Hn. exfalso.
        destruct IH as [_ IH]. 
        assert (Hrest : ~ In label rest) by (intros Hin; apply Hn; now right).
        specialize (IH Hrest). discriminate.
      * split; [|reflexivity]. intros _ [Heq|Hin]; [congruence|].
        destruct IH as [IH _]. now apply IH.
Qed.

(** ** Registering metrics *)

Section RegistryFacts.

Variable E : Env.
Implicit Types self : Experiment E.

Lemma add_all_metrics_unfold self :
  add_all_metrics self = with_metrics (set_all_metrics (metrics self)) self.
Proof. destruct self; reflexivity. Qed.

Lemma set_all_metrics_idempotent d :
  set_all_metrics (set_all_metrics d) = set_all_metrics d.
Proof.
  unfold set_all_metrics at 1.
  set (d' := set_all_metrics d).
  assert (H1 : dict_get "eATE" d' = Some Metrics.ate_error)
    by (unfold d', set_all_metrics; now rewrite !dict_get_set).
  assert (H2 : dict_get "eATE (%)" d' = Some Metrics.ate_percent_error)
    by (unfold d', set_all_metrics; now rewrite !dict_get_set).
  assert (H3 : dict_get "True ATE" d' = Some Metrics.true_ate)
    by (unfold d', set_all_metrics; now rewrite !dict_get_set).
  assert (H4 : dict_get "Est. ATE" d' = Some Metrics.estimated_ate)
    by (unfold d', set_all_metrics; now rewrite !dict_get_set).
  assert (H5 : dict_get "PEHE (MSE)" d' = Some Metrics.mean_squared_error)
    by (unfold d', set_all_metrics; now rewrite !dict_get_set).
  assert (H6 : dict_get "PEHE (MAE)" d' = Some Metrics.absolute_error)
    by (unfold d', set_all_metrics; now rewrite !dict_get_set).
  rewrite (dict_set_same_value _ _ H1), (dict_set_same_value _ _ H2),
    (dict_set_same_value _ _ H3), (dict_set_same_value _ _ H4),
    (dict_set_same_value _ _ H5), (dict_set_same_value _ _ H6).
  reflexivity.
Qed.

End RegistryFacts.

(** ** The result store and the registry *)

(** C7.  [clear()] keeps the list of models as it was, empties the lists of
    generators and of results, and sets [trained] to [False]. *)
Theorem clear_keeps_models_only (E : Env) (self : Experiment E) :
  models (clear self) = models self /\
  generators (clear self) = [] /\
  results (clear self) = [] /\
  trained (clear self) = false.
Proof. repeat split. Qed.

(** [clear()] also leaves the metrics and the counter alone and restores the
    default functions. *)
Lemma clear_other_attributes (E : Env) (self : Experiment E) :
  metrics (clear self) = metrics self /\
  count (clear self) = count self /\
  defaults (clear self) = default_mechanism E.
Proof. repeat split. Qed.

(** C8.  With a first result table [df]: without an ['eATE'] column
    [get_result()] raises [KeyError]; with one, at position [j], it returns
    the cell of the first row of [df] in that column. *)
Theorem get_result_first_table_eATE (E : Env) (self : Experiment E)
    (df : DataFrame) (rest : list DataFrame) :
  results self = df :: rest ->
  (column_position "eATE" (columns df) = None -> get_result self = Err KeyError) /\
  (forall j row more v,
      column_position "eATE" (columns df) = Some j ->
      values df = row :: more ->
      nth_error row j = Some v ->
      nth_error (columns df) j = Some "eATE" /\ get_result self = Ok v).
Proof.
  intros Hres. unfold get_result. rewrite Hres. simpl. split.
  - intros Hnone. rewrite Hnone. reflexivity.
  - intros j row more v Hpos Hvals Hcell.
    split; [apply (column_position_nth _ _ Hpos)|].
    rewrite Hpos, Hvals. simpl. unfold index_at. rewrite Hcell. reflexivity.
Qed.

(** A table without rows has no first row to read. *)
Lemma get_result_no_rows (E : Env) (self : Experiment E) df rest j :
  results self = df :: rest ->
  column_position "eATE" (columns df) = Some j ->
  values df = [] ->
  get_result self = Err IndexError.
Proof.
  intros Hres Hpos Hvals. unfold get_result.
  rewrite Hres. simpl. rewrite Hpos, Hvals. reflexivity.
Qed.

Lemma get_result_no_table (E : Env) (self : Experiment E) :
  results self = [] -> get_result self = Err IndexError.
Proof. intros Hres. unfold get_result. rewrite Hres. reflexivity. Qed.

(** C9.  Registering under a name that is present replaces the function and
    moves nothing; [add_all_metrics] twice is [add_all_metrics] once, and on
    an experiment without metrics it leaves the six built-in entries in the
    order of registration. *)
Theorem add_metric_replaces_in_place (E : Env) (self : Experiment E) :
  (forall name scoring_function,
      In name (keys (metrics self)) ->
      let self' := add_custom_metric name scoring_function self in
      keys (metrics self') = keys (metrics self) /\
      dict_get name (metrics self') = Some scoring_function /\
      forall other, other <> name ->
        dict_get other (metrics self') = dict_get other (metrics self)) /\
  add_all_metrics (add_all_metrics self) = add_all_metrics self /\
  (metrics self = [] ->
   keys (metrics (add_all_metrics self)) = builtin_metric_names /\
   keys (metrics (add_all_metrics (add_all_metrics self))) = builtin_metric_names).
Proof.
  assert (Htwice : add_all_metrics (add_all_metrics self) = add_all_metrics self).
  { rewrite (add_all_metrics_unfold (add_all_metrics self)).
    rewrite (add_all_metrics_unfold self). simpl.
    rewrite set_all_metrics_idempotent.
    destruct self; reflexivity. }
  split; [|split].
  - intros name f Hin self'. unfold self'. simpl. repeat split.
    + now apply keys_set_present.
    + apply dict_get_set_same.
    + intros other Hne. now apply dict_get_set_other.
  - exact Htwice.
  - intros Hempty. rewrite Htwice.
    assert (Honce : keys (metrics (add_all_metrics self)) = builtin_metric_names).
    { rewrite add_all_metrics_unfold. simpl. rewrite Hempty. reflexivity. }
    split; exact Honce.
Qed.

(** C10.  The metric registered as ['True ATE'] returns the mean of the
    ground truth whatever the predictions are. *)
Theorem true_ate_ignores_predictions (E : Env) (self : Experiment E)
    (ite_truth pred1 pred2 : list num) :
  exists metric,
    dict_get "True ATE" (metrics (add_true_ate self)) = Some metric /\
    metric ite_truth pred1 = Ok (np_mean ite_truth) /\
    metric ite_truth pred1 = metric ite_truth pred2.
Proof.
  exists Metrics.true_ate. split; [|split; reflexivity].
  unfold add_true_ate, add_custom_metric. simpl. apply dict_get_set_same.
Qed.

(** ** The built-in metrics *)

Section ComprehensionFacts.

Context {A B : Type}.
Implicit Types (f g : A -> result B) (xs : list A).

Lemma comprehension_ext f g xs :
  (forall x, In x xs -> f x = g x) ->
  comprehension f xs = comprehension g xs.
Proof.
  induction xs as [|x rest IH]; simpl; intros Hfg; [reflexivity|].
  rewrite (Hfg x (or_introl eq_refl)), IH; [reflexivity|].
  intros y Hy. apply Hfg. now right.
Qed.

Lemma comprehension_all_ok f (h : A -> B) xs :
  (forall x, In x xs -> f x = Ok (h x)) ->
  comprehension f xs = Ok (map h xs).
Proof.
  induction xs as [|x rest IH]; simpl; intros Hf; [reflexivity|].
  rewrite (Hf x (or_introl eq_refl)), IH; [reflexivity|].
  intros y Hy. apply Hf. now right.
Qed.

(** When the element expression can only raise [e], one element that
    raises makes the comprehension raise [e]. *)
Lemma comprehension_raises f xs e :
  (forall x, In x xs -> is_ok (f x) = true \/ f x = Err e) ->
  (exists x, In x xs /\ f x = Err e) ->
  comprehension f xs = Err e.
Proof.
  induction xs as [|x rest IH]; simpl; intros Honly [y [Hy Hfy]]; [contradiction|].
  destruct (f x) as [b|e'] eqn:Efx.
  - rewrite IH; [reflexivity| |].
    + intros z Hz. apply Honly. now right.
    + destruct Hy as [Heq|Hin]; [subst y; congruence|]. eauto.
  - destruct (Honly x (or_introl eq_refl)) as [Hok|Herr].
    + rewrite Efx in Hok. discriminate.
    + congruence.
Qed.

End ComprehensionFacts.

Lemma index_at_in_range {A} (xs : list A) i :
  i < List.length xs -> exists x, index_at xs i = Ok x.
Proof.
  intros Hi. unfold index_at.
  destruct (nth_error xs i) eqn:Ei; [eauto|].
  apply nth_error_None in Ei. lia.
Qed.

Lemma index_at_out_of_range {A} (xs : list A) i :
  List.length xs <= i -> index_at xs i = Err IndexError.
Proof.
  intros Hi. unfold index_at.
  apply nth_error_None in Hi. rewrite Hi. reflexivity.
Qed.

Section PairwiseFacts.

Variable h : num -> num -> num.
Implicit Types t p : list num.

(** Predictions shorter than the truth: [ite_pred[i]] is out of range at
    [i = len(ite_pred)]. *)
Lemma pairwise_short_predictions t p :
  List.length p < List.length t -> Metrics.pairwise h t p = Err IndexError.
Proof.
  intros Hlt. unfold Metrics.pairwise. apply comprehension_raises.
  - intros i _. unfold index_at.
    destruct (nth_error t i); simpl; [|now right].
    destruct (nth_error p i); simpl; [now left|now right].
  - exists (List.length p). split.
    + apply in_seq. lia.
    + destruct (index_at_in_range t Hlt) as [x Hx]. rewrite Hx. simpl.
      rewrite index_at_out_of_range; [reflexivity|lia].
Qed.

(** Predictions at least as long as the truth: every term is defined. *)
Lemma pairwise_enough_predictions t p :
  List.length t <= List.length p ->
  exists terms, Metrics.pairwise h t p = Ok terms /\
                List.length terms = List.length t.
Proof.
  intros Hle. unfold Metrics.pairwise.
  set (d := Fin 0).
  rewrite (@comprehension_all_ok _ _ _ (fun i => h (nth i t d) (nth i p d))).
  - eexists. split; [reflexivity|]. now rewrite length_map, length_seq.
  - intros i Hi. apply in_seq in Hi. unfold index_at.
    rewrite (nth_error_nth' t d), (nth_error_nth' p d) by lia.
    reflexivity.
Qed.

(** Predictions beyond [len(ite_truth)] are never read. *)
Lemma pairwise_ignores_extra_predictions t p :
  Metrics.pairwise h t p = Metrics.pairwise h t (firstn (List.length t) p).
Proof.
  unfold Metrics.pairwise. apply comprehension_ext.
  intros i Hi. apply in_seq in Hi. unfold index_at at 2 4.
  rewrite nth_error_firstn.
  destruct (Nat.ltb_spec i (List.length t)); [reflexivity|lia].
Qed.

End PairwiseFacts.

(** C6, as the code has it.  On sequences of different lengths the four
    metrics built from means return a score; the two PEHE metrics raise
    [IndexError] when the predictions are the shorter sequence, and when the
    predictions are the longer one they return the score of the truth
    against the first [len(ite_truth)] predictions. *)
Theorem metrics_on_unequal_lengths (t p : list num) :
  List.length t <> List.length p ->
  (is_ok (Metrics.true_ate t p) = true /\
   is_ok (Metrics.estimated_ate t p) = true /\
   is_ok (Metrics.ate_error t p) = true /\
   is_ok (Metrics.ate_percent_error t p) = true) /\
  (List.length p < List.length t ->
   Metrics.mean_squared_error t p = Err IndexError /\
   Metrics.absolute_error t p = Err IndexError) /\
  (List.length t < List.length p ->
   is_ok (Metrics.mean_squared_error t p) = true /\
   is_ok (Metrics.absolute_error t p) = true /\
   Metrics.mean_squared_error t p =
     Metrics.mean_squared_error t (firstn (List.length t) p) /\
   Metrics.absolute_error t p =
     Metrics.absolute_error t (firstn (List.length t) p)).
Proof.
  intros _. split; [repeat split|split].
  - intros Hshort. unfold Metrics.mean_squared_error, Metrics.absolute_error.
    rewrite !pairwise_short_predictions by exact Hshort. split; reflexivity.
  - intros Hlong. unfold Metrics.mean_squared_error, Metrics.absolute_error.
    rewrite <- !pairwise_ignores_extra_predictions.
    destruct (pairwise_enough_predictions (fun a b => nsquare (a - b)%num) t p)
      as [sq [Hsq _]]; [lia|].
    destruct (pairwise_enough_predictions (fun a b => nabs (a - b)%num) t p)
      as [ab [Hab _]]; [lia|].
    rewrite Hsq, Hab. repeat split.
Qed.

(** The true-ATE metric scores a one-element truth against two predictions. *)
Lemma true_ate_scores_unequal_lengths :
  let t := [of_Z 1] in
  let p := [of_Z 1; of_Z 2] in
  List.length t <> List.length p /\
  Metrics.true_ate t p = Ok (np_mean t) /\
  np_mean t =n= of_Z 1.
Proof. simpl. repeat split. discriminate. Qed.

Lemma metrics_on_unequal_lengths_example :
  let t := [of_Z 1; of_Z 2] in
  let p := [of_Z 1] in
  List.length p < List.length t /\
  Metrics.mean_squared_error t p = Err IndexError /\
  Metrics.absolute_error t p = Err IndexError.
Proof.
  intros t p.
  assert (Hne : List.length t <> List.length p) by (simpl; lia).
  assert (Hlt : List.length p < List.length t) by (simpl; lia).
  split; [exact Hlt|].
  exact (proj1 (proj2 (metrics_on_unequal_lengths t p Hne)) Hlt).
Defined.

(** C5, as the code has it.  When the mean of the ground truth is zero the
    percent-ATE-error metric raises nothing: it returns [inf], or [nan] when
    the mean of the predictions is zero or [nan] as well. *)
Theorem ate_percent_error_zero_truth (t p : list num) :
  List.length t = List.length p ->
  np_mean t =n= of_Z 0 ->
  exists v,
    Metrics.ate_percent_error t p = Ok v /\
    (v = PInf \/ v = NaN) /\
    (v = NaN <-> (np_mean p =n= of_Z 0 \/ np_mean p = NaN)).
Proof.
  intros _ Hzero. unfold Metrics.ate_percent_error.
  destruct (np_mean t) as [z| | |]; simpl in Hzero; try contradiction.
  assert (Hz : Qeq_bool z 0 = true) by (apply Qeq_bool_iff; exact Hzero).
  destruct (np_mean p) as [q| | |]; eexists; (split; [reflexivity|]).
  - cbn [nsub nopp nadd ndiv]. rewrite Hz.
    destruct (Qeq_bool (z + - q) 0) eqn:Ediff.
    + split; [now right|]. split; [intros _|reflexivity].
      left. simpl. apply Qeq_bool_iff in Ediff.
      change (inject_Z 0) with 0%Q in *. lra.
    + assert (Hq : ~ (q == 0)%Q).
      { intros Hq. apply Qeq_bool_neq in Ediff. apply Ediff.
        change (inject_Z 0) with 0%Q in *. lra. }
      destruct (Qle_bool 0 (z + - q)); simpl;
        (split; [now left|]);
        (split; [discriminate|]);
        (intros [Heq|Hnan]; [exfalso; apply Hq; exact Heq|discriminate]).
  - cbn [nsub nopp nadd ndiv]. destruct (Qle_bool 0 z); simpl;
      (split; [now left|]); (split; [discriminate|]);
      (intros [[]|Hnan]; discriminate).
  - cbn [nsub nopp nadd ndiv]. destruct (Qle_bool 0 z); simpl;
      (split; [now left|]); (split; [discriminate|]);
      (intros [[]|Hnan]; discriminate).
  - simpl. split; [now right|]. split; [intros _; now right|reflexivity].
Qed.

(** A ground truth [0] against a prediction [1]: the metric returns [inf]. *)
Lemma ate_percent_error_returns_inf :
  let t := [of_Z 0] in
  let p := [of_Z 1] in
  List.length t = List.length p /\
  np_mean t =n= of_Z 0 /\
  Metrics.ate_percent_error t p = Ok PInf.
Proof. vm_compute. repeat split. Qed.

Lemma ate_percent_error_zero_truth_example :
  exists v,
    Metrics.ate_percent_error [of_Z 1; of_Z (-1)] [of_Z 0; of_Z 0] = Ok v /\
    (v = PInf \/ v = NaN) /\
    (v = NaN <-> (np_mean [of_Z 0; of_Z 0] =n= of_Z 0 \/
                  np_mean [of_Z 0; of_Z 0] = NaN)).
Proof.
  apply (ate_percent_error_zero_truth [of_Z 1; of_Z (-1)] [of_Z 0; of_Z 0]).
  - reflexivity.
  - vm_compute. reflexivity.
Defined.

(** ** The runner *)

(** The sum started at [0] and halved is the mean of two scores. *)
Lemma mean_of_two (a b : num) :
  (((of_Z 0 + a) + b) / of_nat 2)%num =n= ((a + b) / of_nat 2)%num.
Proof.
  destruct a as [x| | |], b as [y| | |]; try exact I.
  unfold of_Z, of_nat, nadd, ndiv.
  change (Qeq_bool (inject_Z (Z.of_nat 2)) 0) with false. cbv iota.
  unfold num_eq. change (inject_Z 0) with 0%Q.
  change (inject_Z (Z.of_nat 2)) with (2 # 1)%Q. field.
Qed.

(** Dividing zeros by zero gives [nan] and raises nothing. *)
Lemma zeros_over_zero {A} (xs : list A) :
  np_div (Arr1 (map (fun _ => of_Z 0) xs)) (of_nat 0)
  = Arr1 (map (fun _ => NaN) xs).
Proof.
  simpl. f_equal. rewrite map_map. apply map_ext. intros _. reflexivity.
Qed.

Section RunnerFacts.

Variable E : Env.
Implicit Types (self : Experiment E) (w : World E).

Lemma accumulate_cons self sd sg shg md mets g n rest acc w :
  accumulate self sd sg shg md mets ((g, n) :: rest) acc w =
  match score_generator self sd sg shg md mets g n w with
  | (Ok result, w1) =>
      match np_add acc result with
      | Ok acc' => accumulate self sd sg shg md mets rest acc' w1
      | Err e => (Err e, w1)
      end
  | (Err e, w1) => (Err e, w1)
  end.
Proof.
  simpl. unfold wbind at 1.
  destruct (score_generator self sd sg shg md mets g n w) as [[result|e] w1];
    [|reflexivity].
  unfold wbind, wpure. destruct (np_add acc result); reflexivity.
Qed.

(** [run()] changes the result store and the [trained] flag only. *)
Lemma run_frame sd sg shg self w r self1 w1 :
  run sd sg shg self w = (r, self1, w1) ->
  models self1 = models self /\
  metrics self1 = metrics self /\
  generators self1 = generators self /\
  count self1 = count self /\
  directory self1 = directory self.
Proof.
  unfold run.
  destruct (accumulate _ _ _ _ _ _ _ _ _) as [[summed|e] w'].
  - destruct (rbind _ _) as [final_result|e].
    + destruct (save_pandas_table _ _ _ _) as [[u|e] w''];
        intros H; inversion H; subst; repeat split.
    + intros H; inversion H; subst; repeat split.
  - intros H; inversion H; subst; repeat split.
Qed.

(** A [run()] that returns has appended one table and set [trained]. *)
Lemma run_ok sd sg shg self w self1 w1 :
  run sd sg shg self w = (Ok tt, self1, w1) ->
  trained self1 = true /\
  exists table, results self1 = results self ++ [table].
Proof.
  unfold run.
  destruct (accumulate _ _ _ _ _ _ _ _ _) as [[summed|e] w'].
  - destruct (rbind _ _) as [final_result|e].
    + destruct (save_pandas_table _ _ _ _) as [[u|e] w''];
        intros H; inversion H; subst.
      split; [reflexivity|]. eexists. reflexivity.
    + intros H; inversion H.
  - intros H; inversion H.
Qed.

End RunnerFacts.

(** C2.  Two generators, one model and one metric: when scoring the first
    generator gives [a] and scoring the second gives [b], [run()] appends a
    table whose only cell is [(a + b) / 2]; the sample sizes play no part. *)
Theorem run_two_generators_mean (E : Env) (self : Experiment E)
    (save_data save_graphs show_graphs : bool)
    (g1 g2 : Generator E) (n1 n2 : nat) (model : Model E)
    (metric_name : string) (metric : Metric) (a b : num) (w0 w1 w2 : World E) :
  generators self = [(g1, n1); (g2, n2)] ->
  models self = [model] ->
  metrics self = [(metric_name, metric)] ->
  score_generator self save_data save_graphs show_graphs
    (model_dictionary_of E (models self)) (metrics self) g1 n1 w0
    = (Ok (Arr2 1 [[a]]), w1) ->
  score_generator self save_data save_graphs show_graphs
    (model_dictionary_of E (models self)) (metrics self) g2 n2 w1
    = (Ok (Arr2 1 [[b]]), w2) ->
  exists (cell : num) (r : result unit) (self' : Experiment E) (w' : World E),
    run save_data save_graphs show_graphs self w0 = (r, self', w') /\
    results self' =
      results self ++ [{| index := [model_str E model];
                          columns := [metric_name];
                          values := [[cell]] |}] /\
    cell =n= ((a + b) / of_nat 2)%num.
Proof.
  intros Hgens Hmodels Hmetrics Hfirst Hsecond.
  destruct (run save_data save_graphs show_graphs self w0) as [[r self'] w'] eqn:Hrun.
  unfold run in Hrun. rewrite Hgens in Hrun.
  rewrite accumulate_cons, Hfirst in Hrun.
  rewrite Hmetrics in Hrun at 1. cbn -[nadd ndiv of_Z of_nat accumulate] in Hrun.
  rewrite accumulate_cons, Hsecond in Hrun.
  cbn -[nadd ndiv of_Z of_nat] in Hrun.
  rewrite Hmodels, Hmetrics in Hrun. cbn -[nadd ndiv of_Z of_nat] in Hrun.
  exists (((of_Z 0 + a) + b) / of_nat 2)%num, r, self', w'.
  split; [reflexivity|]. split; [|apply mean_of_two].
  destruct (save_pandas_table E _ _ w2) as [[u|e] w3];
    inversion Hrun; reflexivity.
Qed.

Lemma run_two_generators_mean_example :
  exists cell r self' w',
    run true true false Demo.two_generators (0 : World Demo.env) = (r, self', w') /\
    results self' =
      results Demo.two_generators ++
      [{| index := [model_str Demo.env 7]; columns := ["eATE"];
          values := [[cell]] |}] /\
    cell =n= ((of_nat 2 + of_nat 4) / of_nat 2)%num.
Proof.
  apply (@run_two_generators_mean Demo.env Demo.two_generators true true false
           0 1 2 4 7 "eATE" Metrics.ate_error (of_nat 2) (of_nat 4) 0 2 4);
    reflexivity.
Defined.

(** C3, as the code has it.  Without generators [run()] checks nothing: the
    zeros are divided by zero, which gives [nan] in every metric position and
    raises nothing.  With a metric registered the assembly of the rows then
    raises [TypeError] and the experiment is left as it was; with no metric
    registered [run()] appends an empty table, and returns unless saving
    that table raises. *)
Theorem run_without_generators (E : Env) (self : Experiment E)
    (save_data save_graphs show_graphs : bool) (w : World E) :
  generators self = [] ->
  np_div (Arr1 (map (fun _ => of_Z 0) (metrics self)))
         (of_nat (List.length (generators self)))
    = Arr1 (map (fun _ => NaN) (metrics self)) /\
  (metrics self <> [] ->
   run save_data save_graphs show_graphs self w = (Err TypeError, self, w)) /\
  (metrics self = [] ->
   let empty := {| index := []; columns := []; values := [] |} in
   exists r self' w',
     run save_data save_graphs show_graphs self w = (r, self', w') /\
     results self' = results self ++ [empty] /\
     (r, w') = save_pandas_table E (directory self ++ "/final_table") empty w /\
     (r = Ok tt -> trained self' = true)).
Proof.
  intros Hgens. split; [|split].
  - rewrite Hgens. apply zeros_over_zero.
  - intros Hmetrics. unfold run. rewrite Hgens.
    cbn [accumulate wret List.length]. rewrite zeros_over_zero.
    destruct (metrics self) as [|entry rest]; [congruence|]. reflexivity.
  - intros Hmetrics empty. unfold run. rewrite Hgens.
    cbn [accumulate wret List.length]. rewrite zeros_over_zero, Hmetrics.
    cbn [map final_rows rbind make_frame forallb keys].
    fold empty.
    change (directory (with_results (results self ++ [empty]) self))
      with (directory self).
    destruct (save_pandas_table E (directory self ++ "/final_table") empty w)
      as [[[]|e] w1].
    + do 3 eexists. repeat split.
    + do 3 eexists. repeat split. discriminate.
Qed.

(** A fresh experiment, with neither generators nor metrics, runs. *)
Lemma run_without_generators_returns :
  generators Demo.fresh = [] /\
  exists self' w',
    run true true false Demo.fresh (0 : World Demo.env) = (Ok tt, self', w') /\
    trained self' = true.
Proof. split; [reflexivity|]. do 2 eexists. split; reflexivity. Qed.

Lemma run_without_generators_example :
  run true true false Demo.no_generator (0 : World Demo.env)
  = (Err TypeError, Demo.no_generator, 0).
Proof.
  apply (@run_without_generators Demo.env Demo.no_generator true true false 0).
  - reflexivity.
  - discriminate.
Defined.

(** ** Testing a specific set *)

Lemma comprehension_total {A B} (f : A -> result B) (xs : list A) :
  (forall x, In x xs -> exists y, f x = Ok y) ->
  exists ys, comprehension f xs = Ok ys.
Proof.
  induction xs as [|x rest IH]; simpl; intros Hf; [eauto|].
  destruct (Hf x (or_introl eq_refl)) as [y Hy]. rewrite Hy.
  destruct IH as [ys Hys]; [intros z Hz; apply Hf; now right|].
  rewrite Hys. eauto.
Qed.

Section TestSetFacts.

Variable E : Env.
Variable test_set : Features E.
Variable truth : list num.
Variable scorers : list Metric.

(** The loop over the models adds one row per model, labelled by the model. *)
Lemma test_models_rows ms :
  forall df w,
    scoring_returns E test_set truth scorers ms w ->
    exists rows w',
      test_models E scorers test_set truth ms df w = (Ok (df ++ rows), w') /\
      map fst rows = map (model_str E) ms.
Proof.
  induction ms as [|model rest IH]; intros df w Hscoring.
  - exists [], w. rewrite app_nil_r. split; reflexivity.
  - cbn [test_models]. unfold wbind at 1.
    cbn [scoring_returns] in Hscoring.
    destruct Hscoring as [predictions [w1 [Hp [Hscore Hrest]]]].
    rewrite Hp. unfold wbind at 1, wpure.
    destruct (@comprehension_total _ _
                (fun metric : Metric => metric truth predictions) scorers)
      as [scores Hscores]; [exact Hscore|].
    rewrite Hscores.
    destruct (IH (df ++ [(model_str E model, scores)]) w1 Hrest)
      as [rows [w2 [Hrows Hlabels]]].
    exists ((model_str E model, scores) :: rows), w2.
    rewrite Hrows, <- app_assoc. simpl. rewrite Hlabels. split; reflexivity.
Qed.

End TestSetFacts.

(** C4.  While [trained] is [False], [test_specific_set()] raises
    [AssertionError] and leaves the experiment, results included, as it was.
    After a [run()] that returned, [trained] is [True] and
    [test_specific_set()], called in the world that [run()] left, returns
    with one table more in the result store, holding one row per registered
    model; this when, from that world on, each model predicts on the supplied
    set, the metrics score those predictions, and the table is saved. *)
Theorem test_specific_set_needs_run (E : Env) (self : Experiment E)
    (test_set : Features E) (truth_set : list num) (w : World E) :
  (trained self = false ->
   test_specific_set test_set truth_set self w = (Err AssertionError, self, w)) /\
  (forall save_data save_graphs show_graphs self1 w1,
      run save_data save_graphs show_graphs self w = (Ok tt, self1, w1) ->
      scoring_returns E test_set truth_set
        (dict_values (metrics self1)) (models self1) w1 ->
      saving_returns test_set truth_set self1 w1 ->
      trained self1 = true /\
      exists df self2 w2,
        test_specific_set test_set truth_set self1 w1 = (Ok tt, self2, w2) /\
        results self2 = results self1 ++ [df] /\
        index df = map (model_str E) (models self1) /\
        List.length (values df) = List.length (models self1) /\
        columns df = keys (metrics self1)).
Proof.
  split.
  - intros Huntrained. unfold test_specific_set. rewrite Huntrained. reflexivity.
  - intros sd sg shg self1 w1 Hrun Hscoring Hsave.
    destruct (run_ok _ _ _ _ _ Hrun) as [Htrained _].
    split; [exact Htrained|].
    unfold test_specific_set. rewrite Htrained. cbn [negb].
    change (models (with_count (count self1 + 1) self1)) with (models self1).
    change (metrics (with_count (count self1 + 1) self1)) with (metrics self1).
    destruct (@test_models_rows E test_set truth_set _ _ [] w1 Hscoring)
      as [rows [w2 [Hrows Hlabels]]].
    destruct (Hsave _ _ Hrows) as [w3 Hsaved].
    rewrite Hrows.
    change (directory
              (with_results
                 (results (with_count (count self1 + 1) self1) ++
                  [{| index := map fst ([] ++ rows);
                      columns := keys (metrics self1);
                      values := map snd ([] ++ rows) |}])
                 (with_count (count self1 + 1) self1)))
      with (directory self1).
    change (count
              (with_results
                 (results (with_count (count self1 + 1) self1) ++
                  [{| index := map fst ([] ++ rows);
                      columns := keys (metrics self1);
                      values := map snd ([] ++ rows) |}])
                 (with_count (count self1 + 1) self1)))
      with (count self1 + 1).
    rewrite Hsaved.
    do 3 eexists. split; [reflexivity|].
    cbn [results with_results with_count index values columns app].
    repeat split.
    + exact Hlabels.
    + cbn [values].
      rewrite <- (length_map (model_str E) (models self1)), <- Hlabels.
      now rewrite !length_map.
Qed.

(** Models that raise until they are fitted: before [run()] the call
    fails on the assertion; after it, in the world [run()] left, it
    returns. *)
Lemma test_specific_set_needs_run_example :
  test_specific_set (E:=Fitting.env) [of_Z 1; of_Z 3] [of_Z 2; of_Z 2]
    Fitting.benchmark false
  = (Err AssertionError, Fitting.benchmark, false) /\
  exists self1 w1 df self2 w2,
    run true true false Fitting.benchmark (false : World Fitting.env)
      = (Ok tt, self1, w1) /\
    test_specific_set (E:=Fitting.env) [of_Z 1; of_Z 3] [of_Z 2; of_Z 2] self1 w1
      = (Ok tt, self2, w2) /\
    results self2 = results self1 ++ [df] /\
    List.length (values df) = List.length (models self1).
Proof.
  destruct (@test_specific_set_needs_run Fitting.env Fitting.benchmark
              [of_Z 1; of_Z 3] [of_Z 2; of_Z 2] false) as [Hbefore Hafter].
  split; [apply Hbefore; reflexivity|].
  destruct (run true true false Fitting.benchmark (false : World Fitting.env))
    as [[r self1] w1] eqn:Hrun.
  assert (Hr : r = Ok tt /\ w1 = true)
    by (vm_compute in Hrun; inversion Hrun; split; reflexivity).
  destruct Hr as [-> ->].
  assert (Hmodels : models self1 = models Fitting.benchmark)
    by apply (run_frame _ _ _ _ _ Hrun).
  assert (Hmetrics : metrics self1 = metrics Fitting.benchmark)
    by apply (run_frame _ _ _ _ _ Hrun).
  destruct (Hafter true true false self1 true Hrun) as [_ [df [self2 [w2 H]]]].
  - rewrite Hmodels, Hmetrics. cbn [Fitting.benchmark models
      add_custom_model with_models app Fitting.fresh scoring_returns].
    exists [of_Z 1; of_Z 3], true. split; [reflexivity|]. split.
    { intros metric Hin. simpl in Hin.
      repeat (destruct Hin as [Heq|Hin]; [subst metric; eexists; reflexivity|]).
      contradiction. }
    exists [of_Z 1; of_Z 3], true. split; [reflexivity|]. split; [|exact I].
    intros metric Hin. simpl in Hin.
    repeat (destruct Hin as [Heq|Hin]; [subst metric; eexists; reflexivity|]).
    contradiction.
  - intros rows w' _. exists w'. reflexivity.
  - exists self1, true, df, self2, w2. split; [reflexivity|].
    destruct H as [Htest [Hres [_ [Hlen _]]]]. auto.
Defined.

Lemma get_result_first_table_eATE_example :
  nth_error (columns {| index := ["model_7"]; columns := ["True ATE"; "eATE"];
                        values := [[of_Z 5; of_Z 3]] |}) 1 = Some "eATE" /\
  get_result Demo.one_table = Ok (of_Z 3).
Proof.
  apply (proj2 (@get_result_first_table_eATE Demo.env Demo.one_table _ [] eq_refl)
           1 [of_Z 5; of_Z 3] [] (of_Z 3)); reflexivity.
Defined.

Lemma add_metric_replaces_in_place_example :
  keys (metrics (add_custom_metric "eATE" Metrics.true_ate Demo.no_generator))
    = ["eATE"] /\
  keys (metrics (add_all_metrics (add_all_metrics Demo.fresh)))
    = builtin_metric_names.
Proof.
  destruct (@add_metric_replaces_in_place Demo.env Demo.no_generator) as [Hreplace _].
  destruct (@add_metric_replaces_in_place Demo.env Demo.fresh) as [_ [_ Hall]].
  split.
  - apply (Hreplace "eATE" Metrics.true_ate). simpl. now left.
  - apply Hall. reflexivity.
Defined.

(** ** The mechanisms of the generators *)

(** The generators that pass [cate = lambda x: treatment_effect(x)]. *)
Lemma constant_treatment_effect_cate (E : Env) (self : Experiment E) x :
  mech_cate (constant_treatment_effect_mechanism self) x
  = mech_treatment_effect (constant_treatment_effect_mechanism self) x.
Proof. reflexivity. Qed.

Lemma only_treatment_effect_cate (E : Env) (self : Experiment E) x :
  mech_cate (only_treatment_effect_mechanism self) x
  = mech_treatment_effect (only_treatment_effect_mechanism self) x.
Proof. reflexivity. Qed.

Lemma default_cate (E : Env) x :
  mech_cate (default_mechanism E) x = mech_treatment_effect (default_mechanism E) x.
Proof. reflexivity. Qed.

(** C1, at the features (0.5, 0.5, 0.5, 0.5, 0.5).  The mechanism of
    [add_noisy_spiked_proxy_generator] has the treatment effect
    [x[0] ** 2 + x[1] ** 2 = 0.5] there, and treating a unit changes its
    outcome by that much whatever the noise drawn, so that
    [E[Y1 - Y0 | x] = 0.5]; the [cate] it passes answers [1], as it does for
    every [x]. *)
Theorem noisy_spiked_proxy_cate_is_one (E : Env) (self : Experiment E) :
  let m := noisy_spiked_proxy_mechanism (_set_defaults self) in
  let x := [half; half; half; half; half] in
  (forall features, mech_cate m features = Ok (of_Z 1)) /\
  (exists treat_eff, mech_treatment_effect m x = Ok treat_eff /\ treat_eff =n= half) /\
  (forall noise : Q,
      exists effect, unit_effect E m x (Fin noise) = Ok effect /\ effect =n= half) /\
  ~ (of_Z 1 =n= half).
Proof.
  intros m x. split; [reflexivity|]. split; [|split].
  - eexists. split; [reflexivity|]. reflexivity.
  - intros noise. eexists. split; [reflexivity|].
    unfold additive_outcome, of_Z, half. simpl.
    change (inject_Z 1) with 1%Q. change (inject_Z 0) with 0%Q.
    change (inject_Z 2) with 2%Q. ring.
  - unfold of_Z, half. simpl. intros H. discriminate H.
Qed.

(* ================================================================== *)
(** * Further properties *)

(** ** Names stay unique *)

Section DictInvariants.

Context {V : Type}.
Implicit Types (d : dict V) (k s : string) (v : V).

Lemma keys_set_in k v d s :
  In s (keys (dict_set k v d)) <-> s = k \/ In s (keys d).
Proof.
  induction d as [|[k' v'] rest IH]; simpl.
  - intuition.
  - destruct (String.eqb k k') eqn:Ekk; simpl.
    + apply String.eqb_eq in Ekk. subst k'. intuition.
    + rewrite IH. intuition.
Qed.

Lemma keys_set_NoDup k v d : NoDup (keys d) -> NoDup (keys (dict_set k v d)).
Proof.
  induction d as [|[k' v'] rest IH]; simpl; intros Hnd.
  - constructor; [intros []|constructor].
  - inversion Hnd as [|? ? Hnotin Hrest]; subst.
    destruct (String.eqb k k') eqn:Ekk; simpl.
    + constructor; assumption.
    + constructor; [|now apply IH].
      rewrite keys_set_in. intros [Heq|Hin]; [|contradiction].
      subst k'. rewrite String.eqb_refl in Ekk. discriminate.
Qed.

Lemma keys_set_length k v d :
  List.length (keys d) <= List.length (keys (dict_set k v d)) <= S (List.length (keys d)).
Proof.
  induction d as [|[k' v'] rest IH]; simpl; [lia|].
  destruct (String.eqb k k'); simpl; lia.
Qed.

End DictInvariants.

(** X1.  [add_custom_metric] keeps the metric names unique; a name that is
    not registered yet becomes the last column, and looking it up gives the
    function just registered while every other name keeps its function. *)
Theorem add_custom_metric_new_name (E : Env) (self : Experiment E)
    (name : string) (scoring_function : Metric) :
  let self' := add_custom_metric name scoring_function self in
  (NoDup (keys (metrics self)) -> NoDup (keys (metrics self'))) /\
  (~ In name (keys (metrics self)) ->
   keys (metrics self') = keys (metrics self) ++ [name] /\
   dict_get name (metrics self') = Some scoring_function /\
   forall other, other <> name ->
     dict_get other (metrics self') = dict_get other (metrics self)).
Proof.
  intros self'. unfold self'. simpl. split.
  - apply keys_set_NoDup.
  - intros Hnew. split; [now apply keys_set_absent|].
    split; [apply dict_get_set_same|].
    intros other Hne. now apply dict_get_set_other.
Qed.

Lemma add_custom_metric_new_name_example :
  keys (metrics (add_custom_metric "coverage" Metrics.true_ate
                   (add_all_metrics Demo.fresh)))
  = builtin_metric_names ++ ["coverage"].
Proof.
  apply (proj2 (@add_custom_metric_new_name Demo.env (add_all_metrics Demo.fresh)
                  "coverage" Metrics.true_ate)).
  simpl. intros H.
  repeat (destruct H as [H|H]; [discriminate H|]). exact H.
Defined.

(** ** The dictionary of models in [run] *)

Section ModelDictionary.

Variable E : Env.
Implicit Types (ms : list (Model E)) (d : dict (Model E)).

Local Abbreviation step :=
  (fun (d : dict (Model E)) (model : Model E) => dict_set (model_str E model) model d).

Lemma fold_models_keys ms d s :
  In s (keys (fold_left step ms d)) <->
  In s (keys d) \/ In s (map (model_str E) ms).
Proof.
  revert d. induction ms as [|m rest IH]; intros d; simpl.
  - intuition.
  - rewrite IH, keys_set_in. intuition.
Qed.

Lemma fold_models_NoDup ms d :
  NoDup (keys d) -> NoDup (keys (fold_left step ms d)).
Proof.
  revert d. induction ms as [|m rest IH]; intros d Hnd; simpl; [exact Hnd|].
  apply IH. now apply keys_set_NoDup.
Qed.

(** A later model with another name does not touch an entry. *)
Lemma fold_models_get_other ms d s :
  ~ In s (map (model_str E) ms) ->
  dict_get s (fold_left step ms d) = dict_get s d.
Proof.
  revert d. induction ms as [|m rest IH]; intros d Hnotin; simpl; [reflexivity|].
  rewrite IH by (intros Hin; apply Hnotin; now right).
  apply dict_get_set_other.
  intros Heq. apply Hnotin. left. now symmetry.
Qed.

Lemma fold_models_get ms d s m :
  dict_get s (fold_left step ms d) = Some m ->
  dict_get s d = Some m \/ (In m ms /\ model_str E m = s).
Proof.
  revert d. induction ms as [|m' rest IH]; intros d; simpl; [now left|].
  intros Hget. destruct (IH _ Hget) as [Hd|[Hin Hname]].
  - rewrite dict_get_set in Hd.
    destruct (String.eqb s (model_str E m')) eqn:Es.
    + inversion Hd; subst m'. right. split; [now left|].
      apply String.eqb_eq in Es. now symmetry.
    + now left.
  - right. split; [now right|exact Hname].
Qed.

Lemma fold_models_distinct ms d :
  NoDup (map (model_str E) ms) ->
  (forall m, In m ms -> ~ In (model_str E m) (keys d)) ->
  keys (fold_left step ms d) = keys d ++ map (model_str E) ms.
Proof.
  revert d. induction ms as [|m rest IH]; intros d Hnd Hfresh; simpl.
  - now rewrite app_nil_r.
  - inversion Hnd as [|? ? Hnotin Hrest]; subst.
    rewrite IH; [| exact Hrest |].
    + rewrite keys_set_absent by (apply Hfresh; now left).
      now rewrite <- app_assoc.
    + intros m' Hin. rewrite keys_set_in.
      intros [Heq|Hold].
      * apply Hnotin. rewrite <- Heq. now apply in_map.
      * apply (Hfresh m'); [now right|exact Hold].
Qed.

End ModelDictionary.

(** X2.  [run] looks the models up by their printed name: the rows it
    scores are the distinct names, models that print alike share one entry
    and the one registered last holds it.  With distinct names there is one
    row per model, in the order of registration; otherwise there are fewer
    rows than models. *)
Theorem model_dictionary_by_name (E : Env) (ms : list (Model E)) :
  let md := model_dictionary_of E ms in
  NoDup (keys md) /\
  (forall s, In s (keys md) <-> In s (map (model_str E) ms)) /\
  (forall s m, dict_get s md = Some m -> In m ms /\ model_str E m = s) /\
  (forall before m after,
      ms = before ++ m :: after ->
      ~ In (model_str E m) (map (model_str E) after) ->
      dict_get (model_str E m) md = Some m) /\
  (NoDup (map (model_str E) ms) -> keys md = map (model_str E) ms) /\
  (~ NoDup (map (model_str E) ms) -> List.length (keys md) < List.length ms).
Proof.
  intros md. unfold md, model_dictionary_of.
  assert (Hnd : NoDup (keys (fold_left
            (fun d model => dict_set (model_str E model) model d) ms [])))
    by (apply fold_models_NoDup; constructor).
  assert (Hkeys : forall s,
            In s (keys (fold_left
              (fun d model => dict_set (model_str E model) model d) ms []))
            <-> In s (map (model_str E) ms)).
  { intros s. rewrite fold_models_keys. simpl. intuition. }
  split; [exact Hnd|]. split; [exact Hkeys|]. split; [|split; [|split]].
  - intros s m Hget. apply fold_models_get in Hget.
    destruct Hget as [Hd|H]; [discriminate Hd|exact H].
  - intros before m after Hms Hlast. subst ms.
    rewrite fold_left_app. simpl.
    rewrite fold_models_get_other by exact Hlast.
    apply dict_get_set_same.
  - intros Hdistinct.
    rewrite fold_models_distinct; [reflexivity|exact Hdistinct|].
    intros m _ [].
  - intros Hdup.
    destruct (Nat.lt_ge_cases
                (List.length (keys (fold_left
                   (fun d model => dict_set (model_str E model) model d) ms [])))
                (List.length ms)) as [Hlt|Hge]; [exact Hlt|].
    exfalso. apply Hdup.
    apply (NoDup_incl_NoDup Hnd).
    + now rewrite length_map.
    + intros s Hs. now apply Hkeys.
Qed.

Lemma model_dictionary_by_name_example :
  dict_get "forest" (model_dictionary_of DemoSystem.alike_env [0; 1; 2]) = Some 1 /\
  List.length (keys (model_dictionary_of DemoSystem.alike_env [0; 1; 2])) < 3.
Proof.
  destruct (@model_dictionary_by_name DemoSystem.alike_env [0; 1; 2])
    as [_ [_ [_ [Hlast [_ Hfewer]]]]].
  split.
  - apply (Hlast [0] 1 [2]); [reflexivity|].
    simpl. intros [H|[]]. discriminate H.
  - apply Hfewer. simpl. intros Hnd.
    inversion Hnd as [|? ? Hnotin _]. apply Hnotin. now left.
Defined.

(** ** What [run] and [test_specific_set] leave behind *)

Section OutcomeFacts.

Variable E : Env.
Implicit Types (self : Experiment E) (w : World E).

(** The result store after [run]: as before, or one table longer; one table
    longer and [trained] set when it returned, [trained] untouched when it
    raised. *)
Lemma run_store sd sg shg self w r self1 w1 :
  run sd sg shg self w = (r, self1, w1) ->
  (r = Ok tt /\ trained self1 = true /\
   exists table, results self1 = results self ++ [table]) \/
  (exists e, r = Err e /\ trained self1 = trained self /\
   (results self1 = results self \/
    exists table, results self1 = results self ++ [table])).
Proof.
  unfold run.
  destruct (accumulate _ _ _ _ _ _ _ _ _) as [[summed|e] w'].
  - destruct (rbind _ _) as [final_result|e].
    + destruct (save_pandas_table _ _ _ _) as [[[]|e] w''];
        intros H; inversion H; subst.
      * left. repeat split. eexists. reflexivity.
      * right. exists e. repeat split. right. eexists. reflexivity.
    + intros H; inversion H; subst. right. exists e. repeat split. now left.
  - intros H; inversion H; subst. right. exists e. repeat split. now left.
Qed.

Lemma test_specific_set_store test_set truth_set self w r self1 w1 :
  trained self = true ->
  test_specific_set test_set truth_set self w = (r, self1, w1) ->
  count self1 = count self + 1 /\
  models self1 = models self /\ metrics self1 = metrics self /\
  generators self1 = generators self /\ trained self1 = true /\
  ((r = Ok tt /\ exists df, results self1 = results self ++ [df]) \/
   (exists e, r = Err e /\
    (results self1 = results self \/
     exists df, results self1 = results self ++ [df]))).
Proof.
  intros Htrained. unfold test_specific_set. rewrite Htrained. cbn [negb].
  destruct (test_models _ _ _ _ _ _ _) as [[rows|e] w'].
  - destruct (save_pandas_table _ _ _ _) as [[[]|e] w''];
      intros H; inversion H; subst; cbn; rewrite Htrained; repeat split.
    + left. split; [reflexivity|]. eexists. reflexivity.
    + right. exists e. split; [reflexivity|]. right. eexists. reflexivity.
  - intros H; inversion H; subst; cbn; rewrite Htrained; repeat split.
    right. exists e. split; [reflexivity|]. now left.
Qed.

(** [get_result] reads the head of the result store only. *)
Lemma get_result_head self self1 df rest more :
  results self = df :: rest ->
  results self1 = (df :: rest) ++ more ->
  get_result self1 = get_result self.
Proof.
  intros Hres Hres1. unfold get_result. rewrite Hres, Hres1. reflexivity.
Qed.

End OutcomeFacts.

(** X3.  [run()] only ever adds to the result store and never touches the
    models, the metrics, the generators or the counter.  When it returns,
    exactly one table was added and [trained] is set; when it raises,
    [trained] is as it was and at most one table was added (the one whose
    saving raised). *)
Theorem run_outcome (E : Env) (self self1 : Experiment E)
    (save_data save_graphs show_graphs : bool) (w w1 : World E) (r : result unit) :
  run save_data save_graphs show_graphs self w = (r, self1, w1) ->
  (models self1 = models self /\ metrics self1 = metrics self /\
   generators self1 = generators self /\ count self1 = count self) /\
  (r = Ok tt ->
   trained self1 = true /\ exists table, results self1 = results self ++ [table]) /\
  (forall e, r = Err e ->
   trained self1 = trained self /\
   (results self1 = results self \/
    exists table, results self1 = results self ++ [table])).
Proof.
  intros Hrun. split; [|split].
  - destruct (run_frame _ _ _ _ _ Hrun) as [Hm [Hmet [Hg [Hc _]]]]. auto.
  - intros Hok. destruct (run_store _ _ _ _ _ Hrun) as [[_ H]|[e [He _]]];
      [exact H|congruence].
  - intros e He. destruct (run_store _ _ _ _ _ Hrun) as [[Hr _]|[e' [_ H]]];
      [congruence|exact H].
Qed.

Lemma run_outcome_example :
  trained (snd (fst (run true true false Demo.no_generator (0 : World Demo.env))))
  = trained Demo.no_generator.
Proof.
  destruct (run true true false Demo.no_generator (0 : World Demo.env))
    as [[r self1] w1] eqn:Hrun.
  destruct (@run_outcome Demo.env Demo.no_generator self1 true true false 0 w1 r Hrun)
    as [_ [_ Herr]].
  assert (Hr : r = Err TypeError) by (vm_compute in Hrun; now inversion Hrun).
  exact (proj1 (Herr TypeError Hr)).
Defined.

(** X4.  Once the assertion has passed, [test_specific_set()] counts the
    call whatever happens next: the counter is one higher even when a model
    or a metric raises, in which case no table is added.  It never changes
    the models, the metrics, the generators or the [trained] flag. *)
Theorem test_specific_set_outcome (E : Env) (self self1 : Experiment E)
    (test_set : Features E) (truth_set : list num) (w w1 : World E)
    (r : result unit) :
  trained self = true ->
  test_specific_set test_set truth_set self w = (r, self1, w1) ->
  count self1 = count self + 1 /\
  (models self1 = models self /\ metrics self1 = metrics self /\
   generators self1 = generators self /\ trained self1 = true) /\
  (r = Ok tt -> exists df, results self1 = results self ++ [df]) /\
  (forall e, r = Err e ->
     results self1 = results self \/
     exists df, results self1 = results self ++ [df]).
Proof.
  intros Htrained Htest.
  destruct (test_specific_set_store _ _ _ _ Htrained Htest)
    as [Hc [Hm [Hmet [Hg [Ht Hres]]]]].
  split; [exact Hc|]. split; [auto|]. split.
  - intros Hok. destruct Hres as [[_ H]|[e [He _]]]; [exact H|congruence].
  - intros e He. destruct Hres as [[Hr _]|[e' [_ H]]]; [congruence|exact H].
Qed.

Lemma test_specific_set_outcome_example :
  count (snd (fst (test_specific_set (E:=Demo.env) [of_Z 1] [of_Z 2; of_Z 2]
                     DemoSystem.trained_benchmark 5)))
  = count DemoSystem.trained_benchmark + 1.
Proof.
  destruct (test_specific_set (E:=Demo.env) [of_Z 1] [of_Z 2; of_Z 2]
              DemoSystem.trained_benchmark 5) as [[r self1] w1] eqn:Htest.
  assert (Htrained : trained DemoSystem.trained_benchmark = true)
    by (vm_compute; reflexivity).
  exact (proj1 (@test_specific_set_outcome Demo.env DemoSystem.trained_benchmark
                  self1 [of_Z 1] [of_Z 2; of_Z 2] 5 w1 r Htrained Htest)).
Defined.

(** X5.  [get_result()] reads the first table ever stored: once there is
    one, neither a further [run()] nor a [test_specific_set()] changes what
    it returns, whether they return or raise. *)
Theorem get_result_is_first_result (E : Env) (self self1 : Experiment E)
    (w w1 : World E) (r : result unit) :
  results self <> [] ->
  (forall save_data save_graphs show_graphs,
      run save_data save_graphs show_graphs self w = (r, self1, w1) ->
      get_result self1 = get_result self) /\
  (forall test_set truth_set,
      test_specific_set test_set truth_set self w = (r, self1, w1) ->
      get_result self1 = get_result self).
Proof.
  intros Hstored.
  destruct (results self) as [|df rest] eqn:Hres; [congruence|].
  split.
  - intros sd sg shg Hrun.
    destruct (run_store _ _ _ _ _ Hrun)
      as [[_ [_ [t Ht]]]|[e [_ [_ [Hsame|[t Ht]]]]]].
    + apply (get_result_head _ _ Hres (more := [t])). now rewrite Ht, Hres.
    + apply (get_result_head _ _ Hres (more := [])).
      now rewrite Hsame, Hres, app_nil_r.
    + apply (get_result_head _ _ Hres (more := [t])). now rewrite Ht, Hres.
  - intros test_set truth_set Htest.
    destruct (trained self) eqn:Htrained.
    + destruct (test_specific_set_store _ _ _ _ Htrained Htest)
        as [_ [_ [_ [_ [_ [[_ [t Ht]]|[e [_ [Hsame|[t Ht]]]]]]]]]].
      * apply (get_result_head _ _ Hres (more := [t])). now rewrite Ht, Hres.
      * apply (get_result_head _ _ Hres (more := [])).
        now rewrite Hsame, Hres, app_nil_r.
      * apply (get_result_head _ _ Hres (more := [t])). now rewrite Ht, Hres.
    + unfold test_specific_set in Htest. rewrite Htrained in Htest.
      inversion Htest; subst. reflexivity.
Qed.

Lemma get_result_is_first_result_example :
  get_result (snd (fst (run true true false DemoSystem.trained_benchmark
                          (5 : World Demo.env))))
  = get_result DemoSystem.trained_benchmark.
Proof.
  destruct (run true true false DemoSystem.trained_benchmark (5 : World Demo.env))
    as [[r self1] w1] eqn:Hrun.
  apply (proj1 (@get_result_is_first_result Demo.env DemoSystem.trained_benchmark
                  self1 5 w1 r ltac:(vm_compute; discriminate)) true true false Hrun).
Defined.

(** X6.  After [clear()] the experiment is untrained and empty of data:
    [get_result()] raises [IndexError] and [test_specific_set()] raises
    [AssertionError], although the models are still there.  The metrics are
    kept, so that with a metric registered a [run()] straight after
    [clear()] raises [TypeError].  Clearing twice is clearing once. *)
Theorem clear_leaves_untrained (E : Env) (self : Experiment E)
    (test_set : Features E) (truth_set : list num) (w : World E) :
  clear (clear self) = clear self /\
  get_result (clear self) = Err IndexError /\
  test_specific_set test_set truth_set (clear self) w
    = (Err AssertionError, clear self, w) /\
  (metrics self <> [] ->
   forall save_data save_graphs show_graphs,
     run save_data save_graphs show_graphs (clear self) w
     = (Err TypeError, clear self, w)).
Proof.
  split; [reflexivity|]. split; [reflexivity|]. split; [reflexivity|].
  intros Hmetrics sd sg shg. unfold run.
  change (generators (clear self)) with (@nil (Generator E * nat)).
  change (metrics (clear self)) with (metrics self).
  cbn [accumulate wret List.length]. rewrite zeros_over_zero.
  destruct (metrics self) as [|entry rest]; [congruence|]. reflexivity.
Qed.

Lemma clear_leaves_untrained_example :
  run true true false (clear DemoSystem.trained_benchmark) (9 : World Demo.env)
  = (Err TypeError, clear DemoSystem.trained_benchmark, 9).
Proof.
  apply (@clear_leaves_untrained Demo.env DemoSystem.trained_benchmark [] [] 9).
  vm_compute. discriminate.
Defined.

(** ** One generator *)

Lemma stretch_same {A} (n : nat) (xs : list A) :
  List.length xs = n -> stretch n xs = xs.
Proof.
  destruct xs as [|x [|y rest]]; simpl; intros Hn; try reflexivity.
  subst n. reflexivity.
Qed.

Lemma map2_zeros {A} (xs : list A) (row : list num) :
  List.length row = List.length xs ->
  map2 nadd (map (fun _ => of_Z 0) xs) row = map (nadd (of_Z 0)) row.
Proof.
  unfold map2. revert row.
  induction xs as [|x rest IH]; intros [|c row]; simpl; intros Hlen;
    try discriminate; try reflexivity.
  f_equal. apply IH. now inversion Hlen.
Qed.

Lemma add_cells_zeros {A} (xs : list A) (row : list num) :
  List.length row = List.length xs ->
  add_cells (List.length xs) (map (fun _ => of_Z 0) xs) row
  = map (nadd (of_Z 0)) row.
Proof.
  intros Hlen. unfold add_cells.
  rewrite !stretch_same by (rewrite ?length_map; auto).
  now apply map2_zeros.
Qed.

Lemma skipn_nth_error {A} (xs : list A) k x :
  nth_error xs k = Some x -> skipn k xs = x :: skipn (S k) xs.
Proof.
  revert k. induction xs as [|y rest IH]; intros [|k]; simpl; try discriminate.
  - intros H. now inversion H.
  - intros H. now apply IH.
Qed.

Lemma label_rows_combine (names : list string) k rows :
  k + List.length rows <= List.length names ->
  label_rows names k rows = Ok (combine (skipn k names) rows).
Proof.
  revert k. induction rows as [|row rest IH]; intros k Hlen; simpl.
  - now rewrite combine_nil.
  - simpl in Hlen. unfold index_at.
    destruct (nth_error names k) as [label|] eqn:Hk.
    + simpl. rewrite IH by lia. simpl.
      now rewrite (skipn_nth_error _ _ Hk).
    + apply nth_error_None in Hk. lia.
Qed.

Lemma combine_fst_snd {A B} (xs : list A) (ys : list B) :
  List.length xs = List.length ys ->
  map fst (combine xs ys) = xs /\ map snd (combine xs ys) = ys.
Proof.
  revert ys. induction xs as [|x rest IH]; intros [|y ys]; simpl; intros Hlen;
    try discriminate; [now split|].
  destruct (IH ys) as [Hf Hs]; [now inversion Hlen|].
  now rewrite Hf, Hs.
Qed.

(** One generator contributes [(0 + x) / 1]. *)
Lemma single_score (x : num) : ((of_Z 0 + x) / of_nat 1)%num =n= x.
Proof.
  destruct x as [q| | |]; try exact I.
  unfold of_Z, of_nat, nadd, ndiv.
  change (Qeq_bool (inject_Z (Z.of_nat 1)) 0) with false. cbv iota.
  unfold num_eq. change (inject_Z 0) with 0%Q.
  change (inject_Z (Z.of_nat 1)) with 1%Q. field.
Qed.

(** X7.  With a single generator whose scores come as one row per entry of
    the model dictionary and one column per metric, [run()] appends the
    table indexed by the model names, with the metric names as columns,
    whose cells are the scores of that generator. *)
Theorem run_single_generator (E : Env) (self : Experiment E)
    (save_data save_graphs show_graphs : bool)
    (g : Generator E) (n : nat) (rows : list (list num)) (w0 w1 : World E) :
  generators self = [(g, n)] ->
  score_generator self save_data save_graphs show_graphs
    (model_dictionary_of E (models self)) (metrics self) g n w0
    = (Ok (Arr2 (List.length (metrics self)) rows), w1) ->
  Forall (fun row => List.length row = List.length (metrics self)) rows ->
  List.length rows = List.length (keys (model_dictionary_of E (models self))) ->
  exists table r self' w',
    run save_data save_graphs show_graphs self w0 = (r, self', w') /\
    results self' = results self ++ [table] /\
    index table = keys (model_dictionary_of E (models self)) /\
    columns table = keys (metrics self) /\
    Forall2 (Forall2 num_eq) (values table) rows.
Proof.
  intros Hgens Hscore Hcols Hrows.
  set (averaged := map (map (fun x => (x / of_nat 1)%num))
                     (map (map (nadd (of_Z 0))) rows)).
  assert (Hframe :
    rbind (final_rows (keys (model_dictionary_of E (models self)))
             (Arr2 (List.length (metrics self)) averaged))
          (fun final_results => make_frame final_results (keys (metrics self)))
    = Ok {| index := keys (model_dictionary_of E (models self));
            columns := keys (metrics self);
            values := averaged |}).
  { cbn [final_rows]. rewrite label_rows_combine
      by (unfold averaged; rewrite !length_map; simpl; lia).
    cbn [rbind skipn]. unfold make_frame.
    destruct (combine_fst_snd (keys (model_dictionary_of E (models self))) averaged)
      as [Hfst Hsnd]; [unfold averaged; now rewrite !length_map|].
    rewrite Hfst, Hsnd.
    replace (forallb _ _) with true; [reflexivity|].
    symmetry. apply forallb_forall. intros [label row] Hin. cbn [snd].
    apply Nat.eqb_eq. apply in_combine_r in Hin. unfold averaged in Hin.
    apply in_map_iff in Hin. destruct Hin as [row1 [<- Hin]].
    apply in_map_iff in Hin. destruct Hin as [row0 [<- Hin]].
    rewrite !length_map. unfold keys. rewrite length_map.
    exact (proj1 (Forall_forall _ _) Hcols row0 Hin). }
  destruct (run save_data save_graphs show_graphs self w0) as [[r self'] w'] eqn:Hrun.
  unfold run in Hrun. rewrite Hgens in Hrun.
  rewrite accumulate_cons, Hscore in Hrun.
  cbn [np_add] in Hrun. rewrite length_map in Hrun.
  unfold broadcast_dim in Hrun. rewrite Nat.eqb_refl in Hrun.
  cbn [accumulate wret List.length np_div] in Hrun.
  assert (Hadd :
    map (fun row => add_cells (List.length (metrics self))
                      (map (fun _ => of_Z 0) (metrics self)) row) rows
    = map (map (nadd (of_Z 0))) rows).
  { apply map_ext_in. intros row Hin. apply add_cells_zeros.
    exact (proj1 (Forall_forall _ _) Hcols row Hin). }
  rewrite Hadd in Hrun.
  fold averaged in Hrun. rewrite Hframe in Hrun.
  exists {| index := keys (model_dictionary_of E (models self));
            columns := keys (metrics self);
            values := averaged |}, r, self', w'.
  split; [reflexivity|]. split.
  - destruct (save_pandas_table E _ _ w1) as [[u|e] w2]; inversion Hrun; reflexivity.
  - split; [reflexivity|]. split; [reflexivity|]. cbn [values].
    unfold averaged. clear. induction rows as [|row rest IH]; simpl; constructor.
    + induction row as [|x row IHrow]; simpl; constructor;
        [apply single_score|exact IHrow].
    + exact IH.
Qed.

Lemma run_single_generator_example :
  exists table r self' w',
    run true true false DemoSystem.single_generator (0 : World Demo.env)
      = (r, self', w') /\
    results self' = results DemoSystem.single_generator ++ [table] /\
    index table = ["model_7"; "model_8"] /\
    columns table = builtin_metric_names /\
    Forall2 (Forall2 num_eq) (values table)
      [repeat (of_nat 3) 6; repeat (of_nat 3) 6].
Proof.
  apply (@run_single_generator Demo.env DemoSystem.single_generator
           true true false 0 3 [repeat (of_nat 3) 6; repeat (of_nat 3) 6] 0 2).
  - reflexivity.
  - reflexivity.
  - repeat constructor.
  - reflexivity.
Defined.

(** ** The cells of a specific test *)


Section TestSetCells.

Variable E : Env.
Variable test_set : Features E.
Variable truth : list num.
Variable scorers : list Metric.



End TestSetCells.



(** ** More on the metrics

    The finite values being exact rationals here and rounded doubles in the
    code, the facts stated of the scores are those that rounding leaves
    alone: a difference of equal values is zero, zeros add up to zero, and
    an absolute value is taken and a quotient by a non-zero value scaled in
    the order the code has them. *)

Section FiniteSequences.

Local Open Scope Q_scope.

Lemma np_sum_from (qs : list Q) (a : Q) :
  fold_left nadd (map Fin qs) (Fin a) = Fin (fold_left Qplus qs a).
Proof.
  revert a. induction qs as [|q rest IH]; intros a; simpl; [reflexivity|].
  apply IH.
Qed.

Lemma sum_of_zeros (qs : list Q) (a : Q) :
  Forall (fun q => q == 0) qs -> fold_left Qplus qs a == a.
Proof.
  revert a. induction qs as [|q rest IH]; intros a Hqs; simpl; [reflexivity|].
  inversion Hqs as [|? ? Hq Hrest]; subst. rewrite IH by assumption. lra.
Qed.

Lemma of_nat_nonzero (n : nat) :
  (0 < n)%nat -> Qeq_bool (inject_Z (Z.of_nat n)) 0 = false.
Proof.
  intros Hn. destruct (Qeq_bool (inject_Z (Z.of_nat n)) 0) eqn:H; [|reflexivity].
  apply Qeq_bool_iff in H. unfold Qeq in H. simpl in H. lia.
Qed.

Lemma of_nat_positive (n : nat) : (0 < n)%nat -> 0 < inject_Z (Z.of_nat n).
Proof.
  intros Hn. change 0 with (inject_Z 0). rewrite <- Zlt_Qlt. lia.
Qed.

(** The mean of finitely many finite values. *)
Lemma ndiv_of_nat (s : Q) (n : nat) :
  (0 < n)%nat -> (Fin s / of_nat n)%num = Fin (s / inject_Z (Z.of_nat n)).
Proof.
  intros Hn. unfold of_nat, ndiv. now rewrite of_nat_nonzero.
Qed.

(** Zeros sum to zero, and their mean is zero. *)
Lemma mean_of_zeros (terms : list Q) (n : nat) :
  (0 < n)%nat ->
  Forall (fun q => q == 0) terms ->
  (np_sum (map Fin terms) / of_nat n)%num =n= of_Z 0.
Proof.
  intros Hn Hzeros. unfold np_sum. rewrite np_sum_from, ndiv_of_nat by exact Hn.
  unfold num_eq, of_Z. change (inject_Z 0) with 0.
  rewrite (sum_of_zeros 0 Hzeros).
  pose proof (of_nat_positive Hn). field. lra.
Qed.

Lemma distance_zero (x y : Q) : Qabs (x + - y) == 0 <-> x == y.
Proof.
  split.
  - apply Qabs_case; intros; lra.
  - intros H. rewrite H.
    assert (Hz : y + - y == 0) by ring. rewrite Hz. reflexivity.
Qed.

End FiniteSequences.

Section PairwiseFinite.

Variable h : num -> num -> num.

Lemma comprehension_map {A B C} (f : B -> result C) (g : A -> B) xs :
  comprehension f (map g xs) = comprehension (fun x => f (g x)) xs.
Proof.
  induction xs as [|x rest IH]; simpl; [reflexivity|]. now rewrite IH.
Qed.

(** On sequences of one length the comprehension pairs the elements up. *)
Lemma pairwise_equal_lengths (t p : list num) :
  List.length t = List.length p -> Metrics.pairwise h t p = Ok (map2 h t p).
Proof.
  unfold Metrics.pairwise, map2. revert p.
  induction t as [|x t IH]; intros [|y p] Hlen; try discriminate; [reflexivity|].
  cbn [List.length seq comprehension].
  change (index_at (x :: t) 0) with (Ok x).
  change (index_at (y :: p) 0) with (Ok y). cbn [rbind].
  rewrite <- seq_shift, comprehension_map.
  rewrite (@comprehension_ext _ _ _
             (fun i => rbind (index_at t i) (fun a =>
                       rbind (index_at p i) (fun b => Ok (h a b)))))
    by reflexivity.
  rewrite IH by (now inversion Hlen). reflexivity.
Qed.

Lemma map2_finite (h' : Q -> Q -> Q) (a b : list Q) :
  (forall x y, h (Fin x) (Fin y) = Fin (h' x y)) ->
  map2 h (map Fin a) (map Fin b) = map Fin (map2 h' a b).
Proof.
  intros Hh. unfold map2. revert b.
  induction a as [|x a IH]; intros [|y b]; simpl; try reflexivity.
  now rewrite Hh, IH.
Qed.

End PairwiseFinite.

Lemma Forall2_map2 {A B C} (f : A -> B -> C) (P : C -> Prop) (R : A -> B -> Prop)
    xs ys :
  (forall x y, R x y -> P (f x y)) ->
  Forall2 R xs ys -> Forall P (map2 f xs ys).
Proof.
  intros Hf Hall. unfold map2. induction Hall; simpl; constructor; auto.
Qed.

(** X9.  When every prediction equals the truth, PEHE (MSE) and PEHE (MAE)
    are zero, on finite sequences that are not empty; on empty sequences
    both are [nan], the sum [0] over the size [0]. *)
Theorem pehe_of_perfect_prediction (truth pred : list Q) :
  (Forall2 Qeq truth pred ->
   truth <> [] ->
   exists mse mae,
     Metrics.mean_squared_error (map Fin truth) (map Fin pred) = Ok mse /\
     Metrics.absolute_error (map Fin truth) (map Fin pred) = Ok mae /\
     mse =n= of_Z 0 /\ mae =n= of_Z 0) /\
  Metrics.mean_squared_error [] [] = Ok NaN /\
  Metrics.absolute_error [] [] = Ok NaN.
Proof.
  split; [|split; reflexivity].
  intros Hequal Hnonempty.
  pose proof (Forall2_length Hequal) as Hlen.
  assert (Hn : 0 < List.length truth)
    by (destruct truth; [congruence|simpl; lia]).
  unfold Metrics.mean_squared_error, Metrics.absolute_error.
  rewrite !pairwise_equal_lengths by (now rewrite !length_map).
  rewrite (@map2_finite _ (fun x y => (x + - y) * (x + - y))%Q) by reflexivity.
  rewrite (@map2_finite _ (fun x y => Qabs (x + - y))%Q) by reflexivity.
  cbn [rbind]. rewrite length_map.
  do 2 eexists. split; [reflexivity|]. split; [reflexivity|]. split.
  - apply mean_of_zeros; [exact Hn|].
    apply (Forall2_map2 _ _ (R := Qeq)); [|exact Hequal].
    intros x y Hxy. rewrite Hxy. ring.
  - apply mean_of_zeros; [exact Hn|].
    apply (Forall2_map2 _ _ (R := Qeq)); [|exact Hequal].
    intros x y Hxy. now apply distance_zero.
Qed.

Lemma pehe_of_perfect_prediction_example :
  exists mse mae,
    Metrics.mean_squared_error [of_Z 1; Fin (3 # 10)] [of_Z 1; Fin (3 # 10)] = Ok mse /\
    Metrics.absolute_error [of_Z 1; Fin (3 # 10)] [of_Z 1; Fin (3 # 10)] = Ok mae /\
    mse =n= of_Z 0 /\ mae =n= of_Z 0.
Proof.
  apply (proj1 (@pehe_of_perfect_prediction [1; 3 # 10]%Q [1; 3 # 10]%Q)).
  - repeat constructor.
  - discriminate.
Defined.

(** X10.  The absolute ATE error does not depend on which sequence is called
    the truth, is never negative, and for finite means is zero exactly when
    the two means are equal. *)
Theorem ate_error_symmetric (t p : list num) :
  exists v v',
    Metrics.ate_error t p = Ok v /\
    Metrics.ate_error p t = Ok v' /\
    v =n= v' /\
    (v = NaN \/ nleb (of_Z 0) v = true) /\
    (forall x y, np_mean t = Fin x -> np_mean p = Fin y ->
                 (v =n= of_Z 0 <-> (x == y)%Q)).
Proof.
  unfold Metrics.ate_error. do 2 eexists.
  split; [reflexivity|]. split; [reflexivity|].
  destruct (np_mean t) as [x| | |], (np_mean p) as [y| | |];
    try (cbn; repeat split; try exact I; try (now left); try (now right);
         intros; discriminate).
  cbn [nsub nopp nadd nabs num_eq nleb of_Z].
  split; [|split].
  - change (Qabs (x - y) == Qabs (y - x))%Q.
    rewrite (Qabs_Qminus x y). reflexivity.
  - right. apply Qle_bool_iff. apply Qabs_nonneg.
  - intros x' y' Hx Hy. inversion Hx; inversion Hy; subst.
    apply distance_zero.
Qed.

Lemma comprehension_constant {A B} (xs : list A) (b : B) :
  comprehension (fun _ => Ok b) xs = Ok (repeat b (List.length xs)).
Proof.
  induction xs as [|x rest IH]; simpl; [reflexivity|]. now rewrite IH.
Qed.

(** The mean of zeros is zero. *)
Lemma np_mean_zeros (n : nat) :
  0 < n -> np_mean (repeat (of_Z 0) n) =n= of_Z 0.
Proof.
  intros Hn. unfold np_mean. rewrite repeat_length.
  change (repeat (of_Z 0) n) with (repeat (Fin 0) n).
  rewrite <- map_repeat.
  apply mean_of_zeros; [exact Hn|].
  apply Forall_forall. intros q Hq. apply repeat_spec in Hq. subst q. reflexivity.
Qed.

(** X11.  The generator without treatment effect has [cate = lambda x: 0]:
    the ['True ATE'] of any non-empty dataset it generates is 0, whatever
    the features drawn and whatever a model predicts. *)
Theorem true_ate_without_treatment_effect (E : Env) (self : Experiment E)
    (features : list (list num)) (predictions : list num) :
  features <> [] ->
  exists truth v,
    comprehension (mech_cate (no_treatment_effect_mechanism self)) features
      = Ok truth /\
    Metrics.true_ate truth predictions = Ok v /\
    v =n= of_Z 0.
Proof.
  intros Hnonempty.
  assert (Hn : 0 < List.length features)
    by (destruct features; [congruence|simpl; lia]).
  do 2 eexists. split; [apply comprehension_constant|].
  split; [reflexivity|]. now apply np_mean_zeros.
Qed.

Lemma true_ate_without_treatment_effect_example :
  exists truth v,
    comprehension
      (mech_cate (no_treatment_effect_mechanism Demo.fresh))
      [[half; half]; [of_Z 0; of_Z 1]; []] = Ok truth /\
    Metrics.true_ate truth [of_Z 7] = Ok v /\
    v =n= of_Z 0.
Proof.
  apply (@true_ate_without_treatment_effect Demo.env Demo.fresh
           [[half; half]; [of_Z 0; of_Z 1]; []] [of_Z 7]).
  discriminate.
Defined.

(** X12.  When both means are finite and the mean of the truth is not
    zero, the percent ATE error is a hundred times the absolute ATE error
    over the absolute value of the true ATE. *)
Theorem ate_percent_error_of_ate_error (t p : list num) (x y : Q) :
  np_mean t = Fin x ->
  np_mean p = Fin y ->
  ~ (x == 0)%Q ->
  exists percent error truth,
    Metrics.ate_percent_error t p = Ok percent /\
    Metrics.ate_error t p = Ok error /\
    Metrics.true_ate t p = Ok truth /\
    percent =n= (error / nabs truth * of_Z 100)%num.
Proof.
  intros Ht Hp Hx.
  unfold Metrics.ate_percent_error, Metrics.ate_error, Metrics.true_ate.
  rewrite Ht, Hp. do 3 eexists. repeat (split; [reflexivity|]).
  assert (Hx0 : Qeq_bool x 0 = false).
  { destruct (Qeq_bool x 0) eqn:H; [|reflexivity].
    apply Qeq_bool_iff in H. contradiction. }
  assert (Hax0 : Qeq_bool (Qabs x) 0 = false).
  { destruct (Qeq_bool (Qabs x) 0) eqn:H; [|reflexivity].
    apply Qeq_bool_iff in H. exfalso. apply Hx.
    revert H. apply Qabs_case; intros; lra. }
  cbn [nsub nopp nadd ndiv nabs]. rewrite Hx0, Hax0.
  cbn [nabs nmul of_Z num_eq].
  unfold Qdiv. rewrite Qabs_Qmult, Qabs_Qinv. reflexivity.
Qed.

Lemma ate_percent_error_of_ate_error_example :
  exists percent error truth,
    Metrics.ate_percent_error [of_Z 2; of_Z 6] [of_Z 5] = Ok percent /\
    Metrics.ate_error [of_Z 2; of_Z 6] [of_Z 5] = Ok error /\
    Metrics.true_ate [of_Z 2; of_Z 6] [of_Z 5] = Ok truth /\
    percent =n= (error / nabs truth * of_Z 100)%num.
Proof.
  apply (@ate_percent_error_of_ate_error [of_Z 2; of_Z 6] [of_Z 5]
           ((0 + 2 + 6) / 2)%Q ((0 + 5) / 1)%Q).
  - reflexivity.
  - reflexivity.
  - intros H. vm_compute in H. discriminate H.
Defined.

(** ** Proxies *)

Lemma concat_singletons {A} (xs : list A) : concat (map (fun x => [x]) xs) = xs.
Proof.
  induction xs as [|x rest IH]; simpl; [reflexivity|]. now rewrite IH.
Qed.

(** X13.  The default proxy function wraps every feature in a proxy of its
    own: it never raises, draws nothing, and flattening its output gives the
    features back. *)
Theorem identity_proxy_round_trip (E : Env) (features : list num) (w : World E) :
  exists proxies,
    identity_proxy E features w = (Ok proxies, w) /\
    concat proxies = features /\
    List.length proxies = List.length features /\
    Forall (fun proxy => List.length proxy = 1) proxies.
Proof.
  eexists. split; [reflexivity|].
  split; [apply concat_singletons|]. split; [apply length_map|].
  apply Forall_forall. intros proxy Hin.
  apply in_map_iff in Hin. destruct Hin as [x [<- _]]. reflexivity.
Qed.

(** X14.  The fixed proxy functions of the spiked and constant generators
    read [features[0]] to [features[4]]: with fewer than five features they
    raise [IndexError]; with five or more they ignore the rest.  The plain
    one exposes the first five features, one proxy each; the proxied one
    repeats the first two features three times, nine values in all.  Neither
    draws anything. *)
Theorem fixed_proxies_need_five_features (E : Env) (features : list num)
    (w : World E) :
  (List.length features < 5 ->
   five_proxies E features w = (Err IndexError, w) /\
   triple_proxies E features w = (Err IndexError, w)) /\
  (forall f0 f1 f2 f3 f4 rest,
      features = f0 :: f1 :: f2 :: f3 :: f4 :: rest ->
      five_proxies E features w = (Ok [[f0]; [f1]; [f2]; [f3]; [f4]], w) /\
      triple_proxies E features w
        = (Ok [[f0; f0; f0]; [f1; f1; f1]; [f2]; [f3]; [f4]], w)) /\
  (5 <= List.length features ->
   five_proxies E features w
     = (Ok (map (fun f => [f]) (firstn 5 features)), w)).
Proof.
  split; [|split].
  - intros Hshort.
    destruct features as [|f0 [|f1 [|f2 [|f3 [|f4 rest]]]]];
      try (split; reflexivity).
    simpl in Hshort. lia.
  - intros f0 f1 f2 f3 f4 rest ->. split; reflexivity.
  - intros Hlong.
    destruct features as [|f0 [|f1 [|f2 [|f3 [|f4 rest]]]]];
      simpl in Hlong; try lia.
    reflexivity.
Qed.

Lemma fixed_proxies_need_five_features_example :
  five_proxies Demo.env [of_Z 1; of_Z 2; of_Z 3; of_Z 4] 0 = (Err IndexError, 0) /\
  triple_proxies Demo.env [of_Z 1; of_Z 2; of_Z 3; of_Z 4] 0 = (Err IndexError, 0).
Proof.
  apply (@fixed_proxies_need_five_features Demo.env
           [of_Z 1; of_Z 2; of_Z 3; of_Z 4] 0).
  simpl. lia.
Defined.

(** X15.  The noisy proxy function draws as it reads.  On five or more
    features it returns nine values: three draws of
    [np.random.normal(features[0], 0.3)], then three draws of
    [np.random.normal(features[1], 0.25)], each in the world the draw before
    left, then the third, fourth and fifth features themselves.  On fewer
    features it raises [IndexError], after the draws it could make: none on
    an empty vector, three on a single feature, all six on two to four
    features. *)
Theorem noisy_proxies_draws (E : Env) (features : list num)
    (f0 f1 a0 a1 a2 b0 b1 b2 : num) (w w1 w2 w3 w4 w5 w6 : World E) :
  np_random_normal E f0 (Fin (3 # 10)) w = (a0, w1) ->
  np_random_normal E f0 (Fin (3 # 10)) w1 = (a1, w2) ->
  np_random_normal E f0 (Fin (3 # 10)) w2 = (a2, w3) ->
  np_random_normal E f1 (Fin (25 # 100)) w3 = (b0, w4) ->
  np_random_normal E f1 (Fin (25 # 100)) w4 = (b1, w5) ->
  np_random_normal E f1 (Fin (25 # 100)) w5 = (b2, w6) ->
  (features = [] -> noisy_proxies E features w = (Err IndexError, w)) /\
  (features = [f0] -> noisy_proxies E features w = (Err IndexError, w3)) /\
  (forall tail,
      features = f0 :: f1 :: tail -> List.length tail < 3 ->
      noisy_proxies E features w = (Err IndexError, w6)) /\
  (forall f2 f3 f4 rest,
      features = f0 :: f1 :: f2 :: f3 :: f4 :: rest ->
      noisy_proxies E features w
        = (Ok [[a0; a1; a2]; [b0; b1; b2]; [f2]; [f3]; [f4]], w6)).
Proof.
  intros Ha0 Ha1 Ha2 Hb0 Hb1 Hb2.
  split; [|split; [|split]].
  - intros ->. reflexivity.
  - intros ->.
    unfold noisy_proxies, noisy_copy, wbind, wpure, wdraw, wret, index_at;
      cbn [nth_error].
    rewrite Ha0, Ha1, Ha2. reflexivity.
  - intros tail -> Hshort.
    unfold noisy_proxies, noisy_copy, wbind, wpure, wdraw, wret, index_at;
      cbn [nth_error].
    rewrite Ha0, Ha1, Ha2, Hb0, Hb1, Hb2.
    destruct tail as [|f2 [|f3 [|f4 rest]]]; try reflexivity.
    simpl in Hshort. lia.
  - intros f2 f3 f4 rest ->.
    unfold noisy_proxies, noisy_copy, wbind, wpure, wdraw, wret, index_at;
      cbn [nth_error].
    rewrite Ha0, Ha1, Ha2, Hb0, Hb1, Hb2. reflexivity.
Qed.

Lemma noisy_proxies_draws_example :
  noisy_proxies Demo.env [of_Z 1; of_Z 2; of_Z 3; of_Z 4; of_Z 5; of_Z 6] 0
  = (Ok [[of_Z 1; of_Z 1; of_Z 1]; [of_Z 2; of_Z 2; of_Z 2];
         [of_Z 3]; [of_Z 4]; [of_Z 5]], 6).
Proof.
  apply (proj2 (proj2 (proj2
           (@noisy_proxies_draws Demo.env
              [of_Z 1; of_Z 2; of_Z 3; of_Z 4; of_Z 5; of_Z 6]
              (of_Z 1) (of_Z 2) (of_Z 1) (of_Z 1) (of_Z 1) (of_Z 2) (of_Z 2) (of_Z 2)
              0 1 2 3 4 5 6 eq_refl eq_refl eq_refl eq_refl eq_refl eq_refl)))
           (of_Z 3) (of_Z 4) (of_Z 5) [of_Z 6]).
  reflexivity.
Defined.

(** ** Mechanisms that keep the contract *)

(** X16.  For the generators with all effects, without treatment effect,
    with the treatment effect only, with the constant and with the constant
    proxied treatment effect, [cate] is the treatment effect: on every
    feature vector the two return the same value or raise the same
    exception.  For the generator without treatment effect, moreover, the
    outcome function returns the same outcome for [treat = 1] and for
    [treat = 0], in keeping with its [cate] of 0. *)
Theorem cate_is_treatment_effect (E : Env)
    (pdf : num -> num * num -> num * num -> num) (self : Experiment E) :
  defaults self = default_mechanism E ->
  (forall (m : CausalMechanism (World E)) (x : list num),
      In m [defaults self;
            no_treatment_effect_mechanism self;
            only_treatment_effect_mechanism self;
            constant_treatment_effect_mechanism self;
            constant_proxied_treatment_effect_mechanism pdf self] ->
      mech_cate m x = mech_treatment_effect m x) /\
  (forall (x : list num) (main noise : Q),
      mech_treatment_effect (no_treatment_effect_mechanism self) x = Ok (of_Z 0) /\
      mech_outcome_function (no_treatment_effect_mechanism self)
        (Fin main) (of_Z 1) (of_Z 0) (Fin noise)
      =n=
      mech_outcome_function (no_treatment_effect_mechanism self)
        (Fin main) (of_Z 0) (of_Z 0) (Fin noise)).
Proof.
  intros Hdefaults. split.
  - intros m x Hin. cbn [In] in Hin.
    destruct Hin as [Hm|[Hm|[Hm|[Hm|[Hm|[]]]]]]; subst m; try reflexivity.
    rewrite Hdefaults. reflexivity.
  - intros x main noise. split; [reflexivity|].
    change (mech_outcome_function (no_treatment_effect_mechanism self))
      with (mech_outcome_function (defaults self)).
    rewrite Hdefaults. unfold of_Z, half. simpl.
    change (inject_Z 1) with 1%Q. change (inject_Z 0) with 0%Q. ring.
Qed.

Lemma cate_is_treatment_effect_example :
  mech_cate (constant_proxied_treatment_effect_mechanism
               (fun _ _ _ => of_Z 4) Demo.fresh) [half]
  = mech_treatment_effect (constant_proxied_treatment_effect_mechanism
                             (fun _ _ _ => of_Z 4) Demo.fresh) [half].
Proof.
  apply (proj1 (@cate_is_treatment_effect Demo.env (fun _ _ _ => of_Z 4)
                  Demo.fresh eq_refl)).
  simpl. auto 6.
Defined.

(** X17.  The functions of the mechanisms index the feature vector: the
    default main effect raises [IndexError] exactly on an empty vector, and
    the default treatment effect, the propensity around the centre and the
    treatment effect of the noisy spiked generator raise [IndexError]
    exactly on vectors with fewer than two features. *)
Theorem mechanisms_need_two_features (E : Env) (self : Experiment E)
    (x : list num) :
  (mech_main_effect (default_mechanism E) x = Err IndexError <-> x = []) /\
  (x <> [] -> is_ok (mech_main_effect (default_mechanism E) x) = true) /\
  (List.length x < 2 ->
   default_treatment_effect E x = Err IndexError /\
   centre_propensity E x = Err IndexError /\
   mech_treatment_effect (noisy_spiked_proxy_mechanism self) x = Err IndexError) /\
  (2 <= List.length x ->
   is_ok (default_treatment_effect E x) = true /\
   is_ok (centre_propensity E x) = true /\
   is_ok (mech_treatment_effect (noisy_spiked_proxy_mechanism self) x) = true).
Proof.
  split; [|split; [|split]].
  - destruct x as [|x0 rest]; cbn; split; intros H;
      try reflexivity; discriminate H.
  - destruct x as [|x0 rest]; [congruence|reflexivity].
  - intros Hshort. destruct x as [|x0 [|x1 rest]];
      [repeat split | repeat split | simpl in Hshort; lia].
  - intros Hlong. destruct x as [|x0 [|x1 rest]];
      [simpl in Hlong; lia | simpl in Hlong; lia | repeat split].
Qed.

Lemma mechanisms_need_two_features_example :
  default_treatment_effect Demo.env [half] = Err IndexError /\
  centre_propensity Demo.env [half] = Err IndexError /\
  mech_treatment_effect (noisy_spiked_proxy_mechanism Demo.fresh) [half]
    = Err IndexError.
Proof.
  apply (@mechanisms_need_two_features Demo.env Demo.fresh [half]).
  simpl. lia.
Defined.

(** ** Reset and construction *)

(** The decimal form of an integer tells the integer. *)
Lemma string_of_Z_inj (z z' : Z) : string_of_Z z = string_of_Z z' -> z = z'.
Proof.
  unfold string_of_Z. intros Heq.
  apply DecimalZ.to_int_inj.
  assert (Hparse : forall n,
            NilZero.int_of_string (NilZero.string_of_int (Z.to_int n))
            = Some (Z.to_int n)).
  { intros n. apply NilZero.isi; destruct n as [|q|q]; simpl; try discriminate;
      intros H; inversion H as [Hnil];
      exact (DecimalPos.Unsigned.to_uint_nonnil q Hnil). }
  pose proof (Hparse z) as Hz. rewrite Heq, Hparse in Hz. now inversion Hz.
Qed.

Lemma append_inj_l (prefix a b : string) :
  (prefix ++ a)%string = (prefix ++ b)%string -> a = b.
Proof.
  induction prefix as [|c prefix IH]; simpl; intros H; [exact H|].
  inversion H. now apply IH.
Qed.

Section ResetFacts.

Variable E : Env.
Variable np_random_seed : Z -> W (World E) unit.
Variable strftime_now : World E -> string.
Variable os_makedirs : string -> W (World E) unit.

(** The hash of the object that is reset. *)
Variable identity_hash : Z.

Local Abbreviation reset_as :=
  (reset np_random_seed strftime_now os_makedirs).

Local Abbreviation reset_with :=
  (reset np_random_seed strftime_now os_makedirs identity_hash).

Local Abbreviation init_as :=
  (__init__ E np_random_seed strftime_now os_makedirs).

(** The seeding step of [reset(seed)], and the world it leaves. *)
Local Abbreviation seeding sd w :=
  (match sd with
   | Some s => np_random_seed s w
   | None => (Ok tt, w)
   end).

(** The directory that [reset] assigns, for the clock read in [w0]. *)
Local Abbreviation directory_of h sd nm w0 :=
  ("experiments/experiment_"
   ++ match sd with
      | Some s => "seeded_" ++ string_of_Z s
      | None => "randomized"
      end
   ++ "_" ++ strftime_now w0 ++ "_"
   ++ match nm with
      | Some n => n
      | None => string_of_Z h
      end)%string.

(** [reset], attribute by attribute. *)
Lemma reset_unfold h sd (self : Experiment E) w :
  reset_as h sd self w =
  match seeding sd w with
  | (Err e, w1) =>
      (Err e,
       {| name := name self; results := []; generators := []; models := [];
          metrics := []; seed := seed self; defaults := defaults self;
          trained := trained self; count := count self;
          directory := directory self |},
       w1)
  | (Ok _, w1) =>
      let d := directory_of h sd (name self) w1 in
      let self1 :=
        {| name := name self; results := []; generators := []; models := [];
           metrics := []; seed := sd; defaults := default_mechanism E;
           trained := false; count := 0; directory := d |} in
      match os_makedirs d w1 with
      | (Err e, w2) => (Err e, self1, w2)
      | (Ok _, w2) => (Ok tt, self1, w2)
      end
  end.
Proof.
  destruct self as [nm res gens ms mets sd0 defs tr cnt dir].
  cbv beta iota zeta delta
    [reset __hash__ with_directory with_count with_trained _set_defaults
     with_defaults with_seed with_metrics with_models with_generators
     with_results name results generators models metrics seed defaults
     trained count directory].
  reflexivity.
Qed.

(** A [reset] that returned got past the seeding. *)
Lemma reset_ok_seeded h sd (self self1 : Experiment E) w w1 :
  reset_as h sd self w = (Ok tt, self1, w1) ->
  exists w0, seeding sd w = (Ok tt, w0).
Proof.
  rewrite reset_unfold. intros Hreset.
  destruct (seeding sd w) as [[[]|e] w0]; [eauto|inversion Hreset].
Qed.

Lemma reset_returned h sd (self self1 : Experiment E) w w0 w1 :
  reset_as h sd self w = (Ok tt, self1, w1) ->
  seeding sd w = (Ok tt, w0) ->
  self1 =
    {| name := name self; results := []; generators := []; models := [];
       metrics := []; seed := sd; defaults := default_mechanism E;
       trained := false; count := 0;
       directory := directory_of h sd (name self) w0 |}.
Proof.
  rewrite reset_unfold. intros Hreset Hseeded. rewrite Hseeded in Hreset.
  cbv zeta in Hreset.
  destruct (os_makedirs _ w0) as [[[]|e] w2]; inversion Hreset; reflexivity.
Qed.

(** Objects of one name, and of one hash when they have no name, are
    reset alike. *)
Lemma reset_same_name h h' sd (self other : Experiment E) w w0 :
  name other = name self ->
  (name self = None -> h' = h) ->
  seeding sd w = (Ok tt, w0) ->
  reset_as h' sd other w = reset_as h sd self w.
Proof.
  intros Hname Hhash Hseeded. rewrite !reset_unfold, Hseeded, Hname.
  destruct (name self) as [n|]; [reflexivity|].
  now rewrite (Hhash eq_refl).
Qed.

(** X18.  [reset()] starts over: when it returns, the results, the
    generators, the models and the metrics are empty, [trained] is [False],
    the counter is 0, the seed is recorded, and the directory is
    [experiments/experiment_], the seed, the time and the hash, which is the
    name or, without a name, the hash of the object.  Of what the experiment
    was before only the name is kept: an experiment of the same name (and,
    without a name, the same object) is reset to the same state, and
    [Experiment(seed, name)] constructs that state.  Two objects without a
    name, whose hashes differ, are given different directories. *)
Theorem reset_starts_over sd (self self1 : Experiment E) w w1 :
  reset_with sd self w = (Ok tt, self1, w1) ->
  (results self1 = [] /\ generators self1 = [] /\ models self1 = [] /\
   metrics self1 = [] /\ trained self1 = false /\ count self1 = 0 /\
   seed self1 = sd /\ name self1 = name self /\
   defaults self1 = default_mechanism E /\
   exists w0,
     seeding sd w = (Ok tt, w0) /\
     directory self1 = directory_of identity_hash sd (name self) w0) /\
  (forall other other_hash,
     name other = name self ->
     (name self = None -> other_hash = identity_hash) ->
     reset_as other_hash sd other w = (Ok tt, self1, w1)) /\
  (forall new_hash,
     (name self = None -> new_hash = identity_hash) ->
     init_as new_hash sd (name self) w = (Ok self1, w1)) /\
  (forall other other_hash self2 w2,
     name self = None -> name other = None ->
     other_hash <> identity_hash ->
     reset_as other_hash sd other w = (Ok tt, self2, w2) ->
     directory self2 <> directory self1).
Proof.
  intros Hreset.
  destruct (reset_ok_seeded _ _ _ _ Hreset) as [w0 Hseeded].
  pose proof (@reset_returned identity_hash sd self self1 w w0 w1 Hreset Hseeded)
    as Hself1.
  split; [|split; [|split]].
  - rewrite Hself1. cbn [results generators models metrics trained count seed
      name defaults directory].
    repeat split. exists w0. split; [exact Hseeded|reflexivity].
  - intros other other_hash Hname Hhash.
    rewrite <- Hreset.
    exact (@reset_same_name identity_hash other_hash sd self other w w0
             Hname Hhash Hseeded).
  - intros new_hash Hhash. unfold __init__.
    rewrite (@reset_same_name identity_hash new_hash sd self
               (unset E (name self)) w w0 eq_refl Hhash Hseeded).
    rewrite Hreset. reflexivity.
  - intros other other_hash self2 w2 Hunnamed Hother Hdiffer Hreset2.
    pose proof (@reset_returned other_hash sd other self2 w w0 w2 Hreset2 Hseeded)
      as Hself2.
    rewrite Hself1, Hself2. cbn [directory]. rewrite Hunnamed, Hother.
    intros Heq. apply Hdiffer.
    do 5 apply append_inj_l in Heq.
    now apply string_of_Z_inj.
Qed.

(** X19.  [reset(seed)] empties the four collections before it seeds the
    random state.  When seeding raises, the exception leaves an experiment
    without results, generators, models and metrics, whose [trained] flag,
    counter, seed and directory are still the old ones. *)
Theorem reset_seeding_raises s e (self : Experiment E) w w1 :
  np_random_seed s w = (Err e, w1) ->
  exists self1,
    reset_with (Some s) self w = (Err e, self1, w1) /\
    (results self1 = [] /\ generators self1 = [] /\ models self1 = [] /\
     metrics self1 = []) /\
    (trained self1 = trained self /\ count self1 = count self /\
     seed self1 = seed self /\ directory self1 = directory self /\
     name self1 = name self).
Proof.
  intros Hseed. rewrite reset_unfold, Hseed.
  eexists. split; [reflexivity|]. repeat split.
Qed.

End ResetFacts.

Lemma reset_starts_over_example :
  exists self1 w1,
    DemoSystem.reset (Some 42%Z) DemoSystem.trained_benchmark 9 = (Ok tt, self1, w1) /\
    models self1 = [] /\ metrics self1 = [] /\ trained self1 = false /\
    directory self1 = "experiments/experiment_seeded_42_2022-06-01_12-00-00_8795".
Proof.
  destruct (DemoSystem.reset (Some 42%Z) DemoSystem.trained_benchmark 9)
    as [[r self1] w1] eqn:Hreset.
  assert (Hr : r = Ok tt) by (vm_compute in Hreset; now inversion Hreset).
  subst r.
  destruct (@reset_starts_over Demo.env DemoSystem.np_random_seed
              DemoSystem.strftime_now DemoSystem.os_makedirs
              DemoSystem.identity_hash (Some 42%Z) DemoSystem.trained_benchmark
              self1 9 w1 Hreset)
    as [[_ [_ [Hm [Hmet [Ht [_ [_ [_ [_ [w0 [_ Hdir]]]]]]]]]]] _].
  exists self1, w1. repeat split; try assumption.
Defined.

Lemma reset_seeding_raises_example :
  exists self1,
    DemoSystem.reset (Some (-1)%Z) DemoSystem.trained_benchmark 9
      = (Err ValueError, self1, 9) /\
    (results self1 = [] /\ generators self1 = [] /\ models self1 = [] /\
     metrics self1 = []) /\
    (trained self1 = trained DemoSystem.trained_benchmark /\
     count self1 = count DemoSystem.trained_benchmark /\
     seed self1 = seed DemoSystem.trained_benchmark /\
     directory self1 = directory DemoSystem.trained_benchmark /\
     name self1 = name DemoSystem.trained_benchmark).
Proof.
  apply (@reset_seeding_raises Demo.env DemoSystem.np_random_seed
           DemoSystem.strftime_now DemoSystem.os_makedirs
           DemoSystem.identity_hash (-1)%Z ValueError
           DemoSystem.trained_benchmark 9 9).
  reflexivity.
Defined.

(** ** The synthetic generator *)

(** X20.  The outcome function of [add_synthetic_generator] reads the
    features [z[0]] to [z[4]] and nothing else: on fewer than five features
    it raises [IndexError], whatever the treatment, and on five or more it
    returns a value that does not depend on the features after the fifth. *)
Theorem synthetic_outcome_reads_five (np_sin : num -> num) (np_pi : num)
    (z : list num) (t : num) :
  (List.length z < 5 -> synthetic_outcome np_sin np_pi z t = Err IndexError) /\
  (5 <= List.length z ->
   is_ok (synthetic_outcome np_sin np_pi z t) = true /\
   forall further,
     synthetic_outcome np_sin np_pi (z ++ further) t
     = synthetic_outcome np_sin np_pi (firstn 5 z) t).
Proof.
  split.
  - intros Hshort.
    destruct z as [|z0 [|z1 [|z2 [|z3 [|z4 rest]]]]];
      try reflexivity.
    simpl in Hshort. lia.
  - intros Hlong.
    destruct z as [|z0 [|z1 [|z2 [|z3 [|z4 rest]]]]];
      simpl in Hlong; try lia.
    split; reflexivity.
Qed.

Lemma synthetic_outcome_reads_five_example :
  synthetic_outcome (fun _ => of_Z 0) (Fin (22 # 7))
    [of_Z 1; of_Z 3; of_Z 0; of_Z 0] (of_Z 1) = Err IndexError.
Proof.
  apply (proj1 (@synthetic_outcome_reads_five (fun _ => of_Z 0) (Fin (22 # 7))
                  [of_Z 1; of_Z 3; of_Z 0; of_Z 0] (of_Z 1))).
  simpl. lia.
Defined.
